(** * r1-automated-pr-example: the pipeline of [src/index.ts]

    The program fetches the files of a repository, sends them with a change
    request to a language model, extracts an XML block from the answer, decodes
    it into file edits and pull-request metadata, and publishes the edits as a
    branch and a pull request.  This file embeds the functions of
    [src/index.ts] and states what they do. *)

From Stdlib Require Import ZArith Ascii String Lia.
From stdpp Require Import base strings list gmap pretty.

Set Warnings "-register-all".

Local Open Scope Z_scope.

(** ** JavaScript values the program handles *)

(** A JavaScript string is a sequence of code units.  [string] gives the code
    units 0..255, which is the range the model covers. *)

(** What a [throw] carries.  [TypeError] is what the runtime raises for a
    property read on [undefined] or [null] and for a call of something that is
    no function; [Error] is [new Error(message)]; [RequestError] is a rejected
    call of a remote service. *)
Inductive exn : Type :=
| Error (message : string)
| TypeError
| RequestError (message : string).

Inductive Result (A : Type) : Type :=
| Return (a : A)
| Throw (e : exn).
Arguments Return {A} a.
Arguments Throw {A} e.

Definition is_Throw {A} (r : Result A) : bool :=
  match r with Throw _ => true | Return _ => false end.

(** [text.indexOf(needle)]: the index of the first occurrence, or -1. *)
Definition indexOf (text needle : string) : Z :=
  match String.index 0 needle text with
  | Some n => Z.of_nat n
  | None => -1
  end.

(** [text.slice(start, end)], with the clamping of negative and too large
    indices that the language prescribes. *)
Definition slice (text : string) (start end_ : Z) : string :=
  let len := Z.of_nat (String.length text) in
  let from := if start <? 0 then Z.max (len + start) 0 else Z.min start len in
  let to := if end_ <? 0 then Z.max (len + end_) 0 else Z.min end_ len in
  String.substring (Z.to_nat from) (Z.to_nat (Z.max (to - from) 0)) text.

(** ** Response parser, first stage: [extractXMLFromResponse] *)

Definition extractXMLFromResponse (text : string) : Result string :=
  let xmlStart := indexOf text "<response>" in
  let xmlEnd := indexOf text "</response>" + Z.of_nat (String.length "</response>") in
  if (xmlStart =? -1) || (xmlEnd =? -1)
  then Throw (Error "Could not find valid XML in model response")
  else Return (slice text xmlStart xmlEnd).

(** ** Branch name: [pr.title.toLowerCase().replace(/[^a-z0-9]+/g, '-')] *)

(** [toLowerCase] on one code unit of the range 0..255: the Latin capital
    letters A-Z and the capital letters U+00C0..U+00DE (the multiplication
    sign U+00D7 apart) move up by 32, every other code unit stays. *)
Definition lower_unit (c : ascii) : ascii :=
  let n := N_of_ascii c in
  if ((65 <=? n) && (n <=? 90))%N then ascii_of_N (n + 32)
  else if ((192 <=? n) && (n <=? 222) && negb (n =? 215))%N then ascii_of_N (n + 32)
  else c.

Fixpoint toLowerCase (s : string) : string :=
  match s with
  | EmptyString => EmptyString
  | String c t => String (lower_unit c) (toLowerCase t)
  end.

(** The character class [[a-z0-9]] of the pattern. *)
Definition alnum (c : ascii) : bool :=
  let n := N_of_ascii c in
  (((97 <=? n) && (n <=? 122)) || ((48 <=? n) && (n <=? 57)))%N.

(** [s.replace(/[^a-z0-9]+/g, '-')]: the scan goes left to right, each maximal
    run of code units outside the class is one match and becomes one hyphen.
    [in_run] says that the previous code unit belonged to the current match. *)
Fixpoint replace_runs (in_run : bool) (s : string) : string :=
  match s with
  | EmptyString => EmptyString
  | String c t =>
      if alnum c then String c (replace_runs false t)
      else if in_run then replace_runs true t
      else String "-" (replace_runs true t)
  end.

Definition replace_non_alnum (s : string) : string := replace_runs false s.

(** The slug of a title, the middle part of the branch name. *)
Definition slugify (title : string) : string :=
  replace_non_alnum (toLowerCase title).

(** [`feature/${slug}-${Date.now()}`]; [now] is the value of [Date.now()], an
    integer number of milliseconds, which a template literal prints in decimal. *)
Definition branchName (slug : string) (now : Z) : string :=
  "feature/" +:+ slug +:+ "-" +:+ pretty now.

Definition newBranch (title : string) (now : Z) : string :=
  branchName (slugify title) now.

(** Every code unit of [s] satisfies [p]. *)
Fixpoint string_forall (p : ascii -> bool) (s : string) : bool :=
  match s with
  | EmptyString => true
  | String c t => p c && string_forall p t
  end.

Definition is_digit (c : ascii) : bool :=
  let n := N_of_ascii c in ((48 <=? n) && (n <=? 57))%N.

Definition is_upper (c : ascii) : bool :=
  let n := N_of_ascii c in ((65 <=? n) && (n <=? 90))%N.

(** The class [[a-z0-9-]]. *)
Definition slug_char (c : ascii) : bool := alnum c || Ascii.eqb c "-".

(** ** The error monad of a [throw] *)

#[global] Instance Result_ret : MRet Result := fun A a => Return a.
#[global] Instance Result_bind : MBind Result := fun A B f r =>
  match r with
  | Return a => f a
  | Throw e => Throw e
  end.

(** ** Values that [parseStringPromise] hands back *)

Inductive jsval : Type :=
| JUndefined
| JNull
| JString (s : string)
| JArray (items : list jsval)
| JObject (fields : list (string * jsval)).

Fixpoint assoc (k : string) (fields : list (string * jsval)) : option jsval :=
  match fields with
  | [] => None
  | (k', v) :: rest => if String.eqb k' k then Some v else assoc k rest
  end.

(** [v.k] for a property name [k] that neither strings nor arrays carry (the
    program reads [response], [files], [file], [path], [content],
    [pullRequest], [title] and [body]): a read on [undefined] or [null]
    throws, a missing property reads as [undefined]. *)
Definition js_get (v : jsval) (k : string) : Result jsval :=
  match v with
  | JUndefined | JNull => Throw TypeError
  | JString _ | JArray _ => Return JUndefined
  | JObject fields => Return (default JUndefined (assoc k fields))
  end.

(** [v[0]]. *)
Definition js_index0 (v : jsval) : Result jsval :=
  match v with
  | JUndefined | JNull => Throw TypeError
  | JString EmptyString => Return JUndefined
  | JString (String c _) => Return (JString (String c EmptyString))
  | JArray [] => Return JUndefined
  | JArray (x :: _) => Return x
  | JObject fields => Return (default JUndefined (assoc "0" fields))
  end.

(** [v.map(f)]: only an array has a [map] to call; the callback runs on the
    elements in order and its first [throw] ends the call. *)
Definition js_map {B} (f : jsval -> Result B) (v : jsval) : Result (list B) :=
  match v with
  | JArray items => mapM f items
  | _ => Throw TypeError
  end.

(** ** Response parser, second stage: [parseModelResponse] *)

(** The interfaces declare the fields as strings; the values come out of the
    parsed object unchecked, so the records hold what the object held. *)
Module FileContent.
Record t : Type := mk { path : jsval; content : jsval }.
End FileContent.

Module PRMetadata.
Record t : Type := mk { title : jsval; body : jsval }.
End PRMetadata.

Module GeneratedContent.
Record t : Type := mk { files : list FileContent.t; pr : PRMetadata.t }.
End GeneratedContent.

(** The arrow function handed to [map]:
    [file => ({ path: file.path[0], content: file.content[0] })]. *)
Definition file_callback (file : jsval) : Result FileContent.t :=
  path ← js_get file "path";
  path0 ← js_index0 path;
  content ← js_get file "content";
  content0 ← js_index0 content;
  mret (FileContent.mk path0 content0).

(** [parseStringPromise] is xml2js's parser, a parameter of the function. *)
Definition parseModelResponse (parseStringPromise : string -> Result jsval)
    (xmlResponse : string) : Result GeneratedContent.t :=
  parsed ← parseStringPromise xmlResponse;
  files ← (response ← js_get parsed "response";
           files ← js_get response "files";
           files0 ← js_index0 files;
           file ← js_get files0 "file";
           js_map file_callback file);
  title ← (response ← js_get parsed "response";
           pullRequest ← js_get response "pullRequest";
           pullRequest0 ← js_index0 pullRequest;
           title ← js_get pullRequest0 "title";
           js_index0 title);
  body ← (response ← js_get parsed "response";
          pullRequest ← js_get response "pullRequest";
          pullRequest0 ← js_index0 pullRequest;
          body ← js_get pullRequest0 "body";
          js_index0 body);
  mret (GeneratedContent.mk files (PRMetadata.mk title body)).

(** ** What xml2js returns for a document *)

(** A document as xml2js sees it: an element has a name, attributes, the
    character data found directly inside it (all chunks concatenated) and its
    child elements in document order. *)
Inductive xml : Type :=
| Element (name : string) (attrs : list (string * string)) (text : string)
          (children : list xml).

Definition xml_name (x : xml) : string :=
  match x with Element name _ _ _ => name end.

(** The class [\s] on the code units 0..255. *)
Definition is_space (c : ascii) : bool :=
  let n := N_of_ascii c in
  (((9 <=? n) && (n <=? 13)) || (n =? 32) || (n =? 160))%N.

(** xml2js's [assignOrPush] with [explicitArray]: the first value under a key
    starts an array, later ones are appended. *)
Fixpoint assignOrPush (obj : list (string * jsval)) (key : string) (v : jsval)
    : list (string * jsval) :=
  match obj with
  | [] => [(key, JArray [v])]
  | (k, old) :: rest =>
      if String.eqb k key
      then (k, match old with
               | JArray items => JArray (items ++ [v])
               | _ => JArray [old; v]
               end) :: rest
      else (k, old) :: assignOrPush rest key v
  end.

(** The value xml2js (default options: [explicitArray], [explicitRoot],
    attributes under [$], text under [_], [emptyTag] the empty string) builds
    for an element when its closing tag is read: an element with neither
    attributes nor children is its text; otherwise it is an object with one
    array per child name, the attributes under [$], and the text under [_]
    unless the text is blank.  Names are XML names other than [_]. *)
Fixpoint xml2js_value (x : xml) : jsval :=
  match x with
  | Element _ attrs text children =>
      let kids :=
        fold_left (fun obj kv => assignOrPush obj kv.1 kv.2)
                  (map (fun c => (xml_name c, xml2js_value c)) children) [] in
      let fields :=
        match attrs with
        | [] => kids
        | _ => ("$", JObject (map (fun a => (a.1, JString a.2)) attrs)) :: kids
        end in
      match fields with
      | [] => JString text
      | _ => if string_forall is_space text then JObject fields
             else JObject (("_", JString text) :: fields)
      end
  end.

(** [explicitRoot]: the result wraps the root's value under the root's name. *)
Definition xml2js_result (root : xml) : jsval :=
  JObject [(xml_name root, xml2js_value root)].

(** Documents of the wire schema. *)
Definition leaf (name text : string) : xml := Element name [] text [].

Definition file_element (edit : string * string) : xml :=
  Element "file" [] "" [leaf "path" edit.1; leaf "content" edit.2].

Definition response_document (title body : string) (edits : list (string * string)) : xml :=
  Element "response" [] ""
    [Element "pullRequest" [] "" [leaf "title" title; leaf "body" body];
     Element "files" [] "" (map file_element edits)].

(** ** Transport encoding of file contents *)

(** UTF-8 of a string of code units 0..255: one byte below 128, two above. *)
Fixpoint utf8 (s : string) : list N :=
  match s with
  | EmptyString => []
  | String c t =>
      let n := N_of_ascii c in
      if (n <? 128)%N then n :: utf8 t
      else (192 + n / 64)%N :: (128 + n mod 64)%N :: utf8 t
  end.

Definition base64_alphabet : string :=
  "ABCDEFGHIJKLMNOPQRSTUVWXYZabcdefghijklmnopqrstuvwxyz0123456789+/".

Definition base64_digit (n : N) : ascii :=
  default "="%char (String.get (N.to_nat n) base64_alphabet).

Fixpoint base64 (bytes : list N) : string :=
  match bytes with
  | [] => ""
  | [a] =>
      String (base64_digit (a / 4))
        (String (base64_digit (a mod 4 * 16)) "==")
  | [a; b] =>
      String (base64_digit (a / 4))
        (String (base64_digit (a mod 4 * 16 + b / 16))
           (String (base64_digit (b mod 16 * 4)) "="))
  | a :: b :: c :: rest =>
      String (base64_digit (a / 4))
        (String (base64_digit (a mod 4 * 16 + b / 16))
           (String (base64_digit (b mod 16 * 4 + c / 64))
              (String (base64_digit (c mod 64)) (base64 rest))))
  end%N.

(** ** What the program does to the outside: console lines and requests *)

Module RepoFile.
Record t : Type := mk { path : string; content : string; sha : string }.
End RepoFile.

(** The console lines by what they print; [LogErrorDetails e] is the line with
    [e.message], which every value of [exn] has. *)
Inductive LogLine : Type :=
| LogItem (path sha : string)
| LogErrorReading (path : string) (e : exn)
| LogGettingRepoFiles
| LogRepoFiles (files : list RepoFile.t)
| LogCodebaseContext (context : string)
| LogUserRequirements (requirements : string)
| LogPullRequestCreated (html_url : string)
| LogErrorCreatingPR (e : exn)
| LogErrorDetails (e : exn)
| LogUsage.

(** One entry per console line, per request to the host ([octokit]), per
    prompt and per call of the model, in the order the program issues them.
    The owner and the repository name go with every host request and are left
    out. *)
Inductive Event : Type :=
| ConsoleLog (line : LogLine)
| ConsoleError (line : LogLine)
| GetContent (path : string)
| GetBlob (file_sha : string)
| Question
| GenerateText (system user : string)
| ReposGet
| GetRef (ref : string)
| CreateRef (ref sha : string)
| CreateOrUpdateFileContents (path : jsval) (message content branch : string)
| PullsCreate (title body : jsval) (head base : string)
| CreateComment (issue_number : Z) (body : string).

(** The requests that change the host: branch, file, pull request, comment. *)
Definition is_write (ev : Event) : bool :=
  match ev with
  | CreateRef _ _ | CreateOrUpdateFileContents _ _ _ _
  | PullsCreate _ _ _ _ | CreateComment _ _ => true
  | _ => false
  end.

(** The console lines and requests of the fetch phase. *)
Definition is_fetch_event (ev : Event) : bool :=
  match ev with
  | ConsoleLog (LogItem _ _) | ConsoleError (LogErrorReading _ _)
  | GetContent _ | GetBlob _ => true
  | _ => false
  end.

(** What the host answers during one walk of [getRepoFiles]: the answer to
    [repos.getContent] for a path is an error, an array of entries or a single
    entry; a file entry carries the answer to [git.getBlob] for its hash, a
    directory entry the answer to [repos.getContent] for its path.  The walk
    asks for every path at most once, so a tree records any sequence of
    answers. *)
Inductive Contents : Type :=
| ContentsError (e : exn)
| ContentsArray (items : list Item)
| ContentsObject (item : Item)
with Item : Type :=
| File (path sha : string) (blob : Result string)
| Dir (path sha : string) (listing : Contents)
| Other (path sha : string).

Definition item_path (item : Item) : string :=
  match item with File p _ _ | Dir p _ _ | Other p _ => p end.

Definition item_sha (item : Item) : string :=
  match item with File _ s _ | Dir _ s _ | Other _ s => s end.

(** Everything outside the program.  The answers of the host and of the model
    may depend on the requests made so far, so they take the history. *)
Record Env : Type := {
  (** [process.env.GITHUB_OWNER || ""] and [process.env.GITHUB_REPO || ""] *)
  GITHUB_OWNER : string;
  GITHUB_REPO : string;
  contents : Contents;
  (** [Buffer.from(content, 'base64').toString()] *)
  decodeBase64 : string -> string;
  (** the line typed at the prompt *)
  answer : string;
  generateText : list Event -> string -> string -> Result (string * option string);
  parseStringPromise : string -> Result jsval;
  (** [Date.now()] *)
  now : Z;
  reposGet : list Event -> Result string;
  getRef : list Event -> string -> Result string;
  createRef : list Event -> string -> string -> Result unit;
  createOrUpdateFileContents :
    list Event -> jsval -> string -> string -> string -> Result unit;
  pullsCreate : list Event -> jsval -> jsval -> string -> string -> Result (Z * string);
  createComment : list Event -> Z -> string -> Result unit;
  (** string conversion of an array or an object in a template literal *)
  toStringOther : jsval -> Result string;
  (** [Buffer.from(v).toString("base64")] for an array or an object *)
  bufferFromOther : jsval -> Result string
}.

(** ** The monad of the program: a history of events and a [throw] *)

Definition M (A : Type) : Type := list Event -> list Event * Result A.

#[global] Instance M_ret : MRet M := fun A a h => (h, Return a).
#[global] Instance M_bind : MBind M := fun A B f m h =>
  match m h with
  | (h', Return a) => f a h'
  | (h', Throw e) => (h', Throw e)
  end.

Definition emit (ev : Event) : M unit := fun h => (h ++ [ev], Return tt).

(** A request is recorded, then answered from the history before it. *)
Definition request {A} (ev : Event) (reply : list Event -> Result A) : M A :=
  fun h => (h ++ [ev], reply h).

Definition lift {A} (r : Result A) : M A := fun h => (h, r).

Definition try_catch {A} (body : M A) (handler : exn -> M A) : M A :=
  fun h =>
    match body h with
    | (h', Throw e) => handler e h'
    | finished => finished
    end.

Fixpoint for_of {A} (items : list A) (body : A -> M unit) : M unit :=
  match items with
  | [] => mret tt
  | item :: rest => body item ≫= fun _ => for_of rest body
  end.

(** ** Repository fetcher: [getRepoFiles] *)

(** [visit] is the body of the loop for one entry; it threads the array
    [files], which lives outside the [try] block and keeps what was pushed
    when the block is left by a [throw]. *)
Fixpoint getRepoFiles (decode : string -> string) (path : string) (c : Contents)
    {struct c} : M (list RepoFile.t) :=
  fun h =>
    let h := h ++ [GetContent path] in
    let '(h, files, outcome) :=
      match c with
      | ContentsError e => (h, [], Throw e)
      | ContentsArray items =>
          (fix each (items : list Item) (files : list RepoFile.t) (h : list Event)
             {struct items} : list Event * list RepoFile.t * Result unit :=
             match items with
             | [] => (h, files, Return tt)
             | item :: rest =>
                 match visit decode item files h with
                 | (h, files, Return _) => each rest files h
                 | stopped => stopped
                 end
             end) items [] h
      | ContentsObject item => visit decode item [] h
      end in
    match outcome with
    | Return _ => (h, Return files)
    | Throw e => (h ++ [ConsoleError (LogErrorReading path e)], Return files)
    end
with visit (decode : string -> string) (item : Item) (files : list RepoFile.t)
    (h : list Event) {struct item} : list Event * list RepoFile.t * Result unit :=
  let h := h ++ [ConsoleLog (LogItem (item_path item) (item_sha item))] in
  match item with
  | File p sha blob =>
      let h := h ++ [GetBlob sha] in
      match blob with
      | Throw e => (h, files, Throw e)
      | Return b => (h, files ++ [RepoFile.mk p (decode b) sha], Return tt)
      end
  | Dir p _ listing =>
      match getRepoFiles decode p listing h with
      | (h, Return sub) => (h, files ++ sub, Return tt)
      | (h, Throw e) => (h, files, Throw e)
      end
  | Other _ _ => (h, files, Return tt)
  end.

(** The loop [for (const item of contents)] of [getRepoFiles]. *)
Fixpoint visit_each (decode : string -> string) (items : list Item)
    (files : list RepoFile.t) (h : list Event)
    : list Event * list RepoFile.t * Result unit :=
  match items with
  | [] => (h, files, Return tt)
  | item :: rest =>
      match visit decode item files h with
      | (h, files, Return _) => visit_each decode rest files h
      | stopped => stopped
      end
  end.

(** ** Requirement prompt: [getUserRequirements] *)

Definition getUserRequirements (env : Env) : M string :=
  request Question (fun _ => Return (answer env)).

(** ** Change generator: the two messages *)

Definition newline : string := String "010" EmptyString.

(** [items.join(sep)] on an array of strings. *)
Fixpoint join (sep : string) (items : list string) : string :=
  match items with
  | [] => ""
  | [x] => x
  | x :: rest => x +:+ sep +:+ join sep rest
  end.

(** [repoFiles.map(f => `${f.path}:\n${f.content}`).join('\n\n')] *)
Definition codebaseContext (repoFiles : list RepoFile.t) : string :=
  join (newline +:+ newline)
    (map (fun f => RepoFile.path f +:+ ":" +:+ newline +:+ RepoFile.content f) repoFiles).

(** The fixed head of the system message, up to the interpolated context. *)
Definition instructions : string :=
"You are a TypeScript expert. Analyze the following codebase and generate changes based on user requirements.
Respond ONLY with valid XML in this format:
<response>
  <pullRequest>
    <title>Title of the pull request</title>
    <body>Detailed description of the changes</body>
  </pullRequest>
  <files>
    <file>
      <path>path/to/file</path>
      <content>File content</content>
    </file>
  </files>
</response>

Current codebase:
".

Definition systemMessage (repoFiles : list RepoFile.t) : string :=
  instructions +:+ codebaseContext repoFiles.

(** ** PR publisher *)

(** [`${v}`] in a template literal. *)
Definition template (env : Env) (v : jsval) : Result string :=
  match v with
  | JString s => Return s
  | JUndefined => Return "undefined"
  | JNull => Return "null"
  | _ => toStringOther env v
  end.

(** [Buffer.from(v).toString("base64")]. *)
Definition toBase64 (env : Env) (v : jsval) : Result string :=
  match v with
  | JString s => Return (base64 (utf8 s))
  | JUndefined | JNull => Throw TypeError
  | _ => bufferFromOther env v
  end.

(** [title.toLowerCase().replace(/[^a-z0-9]+/g, '-')] on whatever the parsed
    object held under the title: only a string has the method. *)
Definition slug_of (title : jsval) : Result string :=
  match title with
  | JString s => Return (slugify s)
  | _ => Throw TypeError
  end.

(** The loop over [files]: one create-or-update request per edit. *)
Definition writeFile (env : Env) (branch : string) (file : FileContent.t) : M unit :=
  message ← lift (template env (FileContent.path file));
  content ← lift (toBase64 env (FileContent.content file));
  request (CreateOrUpdateFileContents (FileContent.path file)
             ("Update " +:+ message) content branch)
          (fun h => createOrUpdateFileContents env h (FileContent.path file)
                      ("Update " +:+ message) content branch).

Definition commentBody (env : Env) (reasoning : option string)
    (files : list FileContent.t) : Result string :=
  lines ← mapM (fun f => p ← template env (FileContent.path f); mret ("- " +:+ p)) files;
  mret ("## AI Model's Reasoning Process" +:+ newline +:+ newline
        +:+ default "undefined" reasoning
        +:+ newline +:+ newline +:+ "## Modified Files" +:+ newline
        +:+ join newline lines).

(** ** The pipeline: [createAutomatedPR] *)

(** The body of the [try] block is cut in three at the two places the
    components meet.  [generate] is the part up to the answer of the model
    (fetch, prompt, call). *)
Definition generate (env : Env) : M (string * option string) :=
  emit (ConsoleLog LogGettingRepoFiles);;
  repoFiles ← getRepoFiles (decodeBase64 env) "" (contents env);
  emit (ConsoleLog (LogRepoFiles repoFiles));;
  emit (ConsoleLog (LogCodebaseContext (codebaseContext repoFiles)));;
  userRequirements ← getUserRequirements env;
  emit (ConsoleLog (LogUserRequirements userRequirements));;
  request (GenerateText (systemMessage repoFiles) userRequirements)
    (fun h => generateText env h (systemMessage repoFiles) userRequirements).

(** [publish] is the part after the parse: default branch, new branch, one
    write per edit, pull request, comment. *)
Definition publish (env : Env) (files : list FileContent.t) (pr : PRMetadata.t)
    (reasoning : option string) : M unit :=
  defaultBranch ← request ReposGet (reposGet env);
  slug ← lift (slug_of (PRMetadata.title pr));
  let newBranch := branchName slug (now env) in
  sha ← request (GetRef ("heads/" +:+ defaultBranch))
          (fun h => getRef env h ("heads/" +:+ defaultBranch));
  request (CreateRef ("refs/heads/" +:+ newBranch) sha)
    (fun h => createRef env h ("refs/heads/" +:+ newBranch) sha);;
  for_of files (writeFile env newBranch);;
  pullRequest ← request (PullsCreate (PRMetadata.title pr) (PRMetadata.body pr)
                           newBranch defaultBranch)
                  (fun h => pullsCreate env h (PRMetadata.title pr) (PRMetadata.body pr)
                              newBranch defaultBranch);
  body ← lift (commentBody env reasoning files);
  request (CreateComment pullRequest.1 body)
    (fun h => createComment env h pullRequest.1 body);;
  emit (ConsoleLog (LogPullRequestCreated pullRequest.2)).

(** The [catch] block: two console lines, nothing rethrown.  Every value of
    [exn] is an [Error] object, so the test [error instanceof Error] holds
    and the second line is printed. *)
Definition report (error : exn) : M unit :=
  emit (ConsoleError (LogErrorCreatingPR error));;
  emit (ConsoleError (LogErrorDetails error)).

Definition createAutomatedPR (env : Env) : M unit :=
  try_catch
    (generated ← generate env;
     xmlResponse ← lift (extractXMLFromResponse generated.1);
     parsed ← lift (parseModelResponse (parseStringPromise env) xmlResponse);
     publish env (GeneratedContent.files parsed) (GeneratedContent.pr parsed) generated.2)
    report.

(** The module body: without the two settings it throws while loading; the
    flag starts the pipeline, its absence prints the usage text. *)
Definition main (argv : list string) (env : Env) : M unit :=
  if String.eqb (GITHUB_OWNER env) "" || String.eqb (GITHUB_REPO env) ""
  then lift (Throw (Error "GITHUB_OWNER and GITHUB_REPO environment variables must be set"))
  else if bool_decide ("--interactive" ∈ argv) then createAutomatedPR env
  else emit (ConsoleLog LogUsage).

(** The events of a run from an empty history. *)
Definition run (env : Env) : list Event := (createAutomatedPR env []).1.

(** ** Notions the statements use *)

(** Induction over an answer tree, with the hypothesis for every entry of an
    array. *)
Section Contents_induction.
Variables (P : Contents -> Prop) (Q : Item -> Prop).
Hypothesis P_error : forall e, P (ContentsError e).
Hypothesis P_array : forall items, Forall Q items -> P (ContentsArray items).
Hypothesis P_object : forall item, Q item -> P (ContentsObject item).
Hypothesis Q_file : forall p sha blob, Q (File p sha blob).
Hypothesis Q_dir : forall p sha listing, P listing -> Q (Dir p sha listing).
Hypothesis Q_other : forall p sha, Q (Other p sha).

Fixpoint Contents_tree_ind (c : Contents) : P c :=
  match c with
  | ContentsError e => P_error e
  | ContentsArray items =>
      P_array items
        ((fix entries (l : list Item) : Forall Q l :=
            match l with
            | [] => @List.Forall_nil _ Q
            | item :: rest => @List.Forall_cons _ Q item rest (Item_tree_ind item) (entries rest)
            end) items)
  | ContentsObject item => P_object item (Item_tree_ind item)
  end
with Item_tree_ind (item : Item) : Q item :=
  match item with
  | File p sha blob => Q_file p sha blob
  | Dir p sha listing => Q_dir p sha listing (Contents_tree_ind listing)
  | Other p sha => Q_other p sha
  end.
End Contents_induction.

(** The files a walk returns; the path and the history only show in the
    events (lemma [getRepoFiles_files]). *)
Definition fetched (decode : string -> string) (c : Contents) : list RepoFile.t :=
  match (getRepoFiles decode "" c []).2 with
  | Return files => files
  | Throw _ => []
  end.

(** A walk appends events that do not depend on the history, returns files
    that depend on neither the history nor the path, and never throws. *)
Definition walk_frame (decode : string -> string) (c : Contents) : Prop :=
  exists files, forall path, exists evs,
    Forall (fun ev => is_fetch_event ev = true) evs /\
    forall h, getRepoFiles decode path c h = (h ++ evs, Return files).

(** The loop body and the loop append events and files alike; they either
    finish or stop at a failed request. *)
Definition loop_frame (run : list RepoFile.t -> list Event ->
                             list Event * list RepoFile.t * Result unit) : Prop :=
  exists evs more outcome,
    Forall (fun ev => is_fetch_event ev = true) evs /\
    forall files h, run files h = (h ++ evs, files ++ more, outcome).

(** An error answer somewhere in the tree. *)
Fixpoint has_error (c : Contents) : bool :=
  match c with
  | ContentsError _ => true
  | ContentsArray items =>
      existsb (fun item => match item with
                           | File _ _ (Throw _) => true
                           | File _ _ (Return _) => false
                           | Dir _ _ listing => has_error listing
                           | Other _ _ => false
                           end) items
  | ContentsObject (File _ _ (Throw _)) => true
  | ContentsObject (Dir _ _ listing) => has_error listing
  | ContentsObject _ => false
  end.

(** No entry of the array itself is a file whose blob request fails. *)
Definition blobs_ok (items : list Item) : bool :=
  forallb (fun item => match item with File _ _ (Throw _) => false | _ => true end) items.

(** A directory listing whose second blob request fails, and a listing whose
    first blob request fails before a readable subdirectory. *)
Definition listing_second_blob_fails : Contents :=
  ContentsArray
    [File "d/a.ts" "sha-a" (Return "YQ==");
     File "d/b.ts" "sha-b" (Throw (RequestError "Not Found"));
     File "d/c.ts" "sha-c" (Return "Yw==")].

Definition listing_first_blob_fails : Contents :=
  ContentsArray
    [File "x.ts" "sha-x" (Throw (RequestError "Not Found"));
     Dir "lib" "sha-lib" (ContentsArray [File "lib/y.ts" "sha-y" (Return "eQ==")])].

(** Reading a document the way the schema describes it. *)
Definition xml_children (x : xml) : list xml :=
  match x with Element _ _ _ children => children end.

Definition children_named (k : string) (x : xml) : list xml :=
  List.filter (fun c => String.eqb (xml_name c) k) (xml_children x).

Definition first_child (k : string) (x : xml) : option xml :=
  head (children_named k x).

(** What [v.k] finds on the value of an element: nothing without a child named
    [k], else the array of the values of those children. *)
Definition group (k : string) (x : xml) : jsval :=
  match children_named k x with
  | [] => JUndefined
  | named => JArray (map xml2js_value named)
  end.

(** A value that is missing where one is read makes the runtime throw. *)
Definition of_option {A} (o : option A) : Result A :=
  match o with
  | Some a => Return a
  | None => Throw TypeError
  end.

(** The edit a [file] element stands for: the values of its first [path] and
    first [content] child. *)
Definition decode_file (file : xml) : option FileContent.t :=
  path ← first_child "path" file;
  content ← first_child "content" file;
  Some (FileContent.mk (xml2js_value path) (xml2js_value content)).

(** The content a document stands for: the [file] children of the first
    [files] element, of which there must be one, and the [title] and [body] of
    the first [pullRequest] element. *)
Definition decode_document (root : xml) : option GeneratedContent.t :=
  if String.eqb (xml_name root) "response" then
    files ← first_child "files" root;
    edits ← match children_named "file" files with
            | [] => None
            | named => mapM decode_file named
            end;
    pullRequest ← first_child "pullRequest" root;
    title ← first_child "title" pullRequest;
    body ← first_child "body" pullRequest;
    Some (GeneratedContent.mk edits
            (PRMetadata.mk (xml2js_value title) (xml2js_value body)))
  else None.

Definition has_child (k : string) (x : xml) : bool :=
  match children_named k x with [] => false | _ => true end.

(** The elements the program reads are all there: the root is [response]; it
    has a [files] child, the first of which has a [file] child, and each of
    these has a [path] and a [content]; it has a [pullRequest] child, the
    first of which has a [title] and a [body]. *)
Definition complete (root : xml) : bool :=
  String.eqb (xml_name root) "response"
  && match first_child "files" root with
     | Some files =>
         has_child "file" files
         && forallb (fun file => has_child "path" file && has_child "content" file)
              (children_named "file" files)
     | None => false
     end
  && match first_child "pullRequest" root with
     | Some pullRequest => has_child "title" pullRequest && has_child "body" pullRequest
     | None => false
     end.

(** A document of the wire schema with the given title, body and edits, in
    document order; the containers may hold blank text between their
    children. *)
Definition blank (s : string) : Prop := string_forall is_space s = true.

Definition valid_file (file : xml) (edit : string * string) : Prop :=
  exists pad, blank pad /\
    file = Element "file" [] pad [leaf "path" edit.1; leaf "content" edit.2].

Definition valid_document (root : xml) (title body : string)
    (edits : list (string * string)) : Prop :=
  exists pad1 pad2 pad3 files,
    blank pad1 /\ blank pad2 /\ blank pad3 /\
    Forall2 valid_file files edits /\
    root = Element "response" [] pad1
             [Element "pullRequest" [] pad2 [leaf "title" title; leaf "body" body];
              Element "files" [] pad3 files].

Definition edit_of (edit : string * string) : FileContent.t :=
  FileContent.mk (JString edit.1) (JString edit.2).

(** A response whose [files] element is empty, and one with structure the
    schema does not have: an attribute, a second [pullRequest], an unknown
    element, and text next to the children. *)
Definition response_without_files : string :=
  "<response><pullRequest><title>T</title><body>B</body></pullRequest><files></files></response>".

Definition response_with_extras : string :=
  "<response>see below<note><author>me</author></note><pullRequest><title>T</title><body>B</body><label>x</label></pullRequest><pullRequest><title>T2</title></pullRequest><files><file mode='644'><path>a.ts</path><content>1</content></file></files></response>".

Definition document_with_extras : xml :=
  Element "response" [] "see below"
    [Element "note" [] "" [leaf "author" "me"];
     Element "pullRequest" [] "" [leaf "title" "T"; leaf "body" "B"; leaf "label" "x"];
     Element "pullRequest" [] "" [leaf "title" "T2"];
     Element "files" [] ""
       [Element "file" [("mode", "644")] "" [leaf "path" "a.ts"; leaf "content" "1"]]].

(** The context as the contract words it: one block [path:\ncontent] per
    file, a blank line between consecutive blocks. *)
Definition block (file : RepoFile.t) : string :=
  RepoFile.path file +:+ ":" +:+ newline +:+ RepoFile.content file.

Fixpoint rendered_blocks (files : list RepoFile.t) : string :=
  match files with
  | [] => ""
  | [file] => block file
  | file :: rest => block file +:+ newline +:+ newline +:+ rendered_blocks rest
  end.

Definition is_generate (ev : Event) : bool :=
  match ev with GenerateText _ _ => true | _ => false end.

(** A computation only appends to the history, and what it appends
    satisfies [P]. *)
Definition emits {A} (P : Event -> Prop) (m : M A) : Prop :=
  forall h, exists evs, (m h).1 = h ++ evs /\ Forall P evs.

(** An environment in which the model answers without the tag. *)
Definition env_no_tag : Env := {|
  GITHUB_OWNER := "octo";
  GITHUB_REPO := "demo";
  contents := ContentsArray [File "a.ts" "sha-a" (Return "YQ==")];
  decodeBase64 := fun s => s;
  answer := "add logging";
  generateText := fun _ _ _ => Return ("I cannot help with that.", None);
  parseStringPromise := fun _ => Throw (Error "Unexpected close tag");
  now := 1700000000000;
  reposGet := fun _ => Return "main";
  getRef := fun _ _ => Return "abc123";
  createRef := fun _ _ _ => Return tt;
  createOrUpdateFileContents := fun _ _ _ _ _ => Return tt;
  pullsCreate := fun _ _ _ _ _ => Return (7, "https://host/pull/7");
  createComment := fun _ _ _ => Return tt;
  toStringOther := fun _ => Throw TypeError;
  bufferFromOther := fun _ => Throw TypeError
|}.

(** The request the loop issues for an edit whose path and content are
    strings. *)
Definition write_of (branch : string) (edit : string * string) : Event :=
  CreateOrUpdateFileContents (JString edit.1) ("Update " +:+ edit.1)
    (base64 (utf8 edit.2)) branch.

(** The comment for edits whose paths are strings. *)
Definition comment_text (reasoning : option string) (paths : list string) : string :=
  "## AI Model's Reasoning Process" +:+ newline +:+ newline
  +:+ default "undefined" reasoning
  +:+ newline +:+ newline +:+ "## Modified Files" +:+ newline
  +:+ join newline (map (fun p => "- " +:+ p) paths).

(** A host that accepts every request of the publisher. *)
Definition host_accepts (env : Env) (defaultBranch sha : string) (number : Z)
    (html_url : string) : Prop :=
  (forall h, reposGet env h = Return defaultBranch) /\
  (forall h ref, getRef env h ref = Return sha) /\
  (forall h ref sha', createRef env h ref sha' = Return tt) /\
  (forall h p m c b, createOrUpdateFileContents env h p m c b = Return tt) /\
  (forall h t b head base, pullsCreate env h t b head base = Return (number, html_url)) /\
  (forall h n b, createComment env h n b = Return tt).

(** The files of the new branch as the requests leave them: a
    create-or-update request puts its content at its path. *)
Definition record_write (store : gmap string string) (ev : Event) : gmap string string :=
  match ev with
  | CreateOrUpdateFileContents (JString path) _ content _ => <[path := content]> store
  | _ => store
  end.

Definition branch_files (evs : list Event) : gmap string string :=
  fold_left record_write evs ∅.

(** An environment whose host accepts every request, and whose model
    answers with the given text, parsed to the given object. *)
Definition env_accepting (text : string) (parsed : jsval) : Env := {|
  GITHUB_OWNER := "octo";
  GITHUB_REPO := "demo";
  contents := ContentsArray [File "a.ts" "sha-a" (Return "YQ==")];
  decodeBase64 := fun s => s;
  answer := "add logging";
  generateText := fun _ _ _ => Return (text, Some "Thinking.");
  parseStringPromise := fun _ => Return parsed;
  now := 1700000000000;
  reposGet := fun _ => Return "main";
  getRef := fun _ _ => Return "abc123";
  createRef := fun _ _ _ => Return tt;
  createOrUpdateFileContents := fun _ _ _ _ _ => Return tt;
  pullsCreate := fun _ _ _ _ _ => Return (7, "https://host/pull/7");
  createComment := fun _ _ _ => Return tt;
  toStringOther := fun _ => Throw TypeError;
  bufferFromOther := fun _ => Throw TypeError
|}.

(** The response of the end-to-end scenario and its document. *)
Definition scenario_response : string :=
  "<response><pullRequest><title>Add Logging</title><body>Adds a logger.</body></pullRequest><files><file><path>src/log.ts</path><content>export const log = console.log;</content></file></files></response>".

Definition scenario_document : xml :=
  response_document "Add Logging" "Adds a logger."
    [("src/log.ts", "export const log = console.log;")].

(** ** Notions of the further properties *)


(** The code units of [s] that satisfy [p], in order. *)
Fixpoint string_filter (p : ascii -> bool) (s : string) : string :=
  match s with
  | EmptyString => EmptyString
  | String c t => if p c then String c (string_filter p t) else string_filter p t
  end.

(** Every file of a tree whose blob is there, directories first to last and
    depth first. *)
Fixpoint all_files (decode : string -> string) (c : Contents) : list RepoFile.t :=
  match c with
  | ContentsError _ => []
  | ContentsArray items => flat_map (item_files decode) items
  | ContentsObject item => item_files decode item
  end
with item_files (decode : string -> string) (item : Item) : list RepoFile.t :=
  match item with
  | File p sha (Return b) => [RepoFile.mk p (decode b) sha]
  | File _ _ (Throw _) => []
  | Dir _ _ listing => all_files decode listing
  | Other _ _ => []
  end.

(** The error answers under one entry. *)
Definition item_has_error (item : Item) : bool :=
  match item with
  | File _ _ (Throw _) => true
  | File _ _ (Return _) => false
  | Dir _ _ listing => has_error listing
  | Other _ _ => false
  end.

Definition is_console_error (ev : Event) : bool :=
  match ev with ConsoleError _ => true | _ => false end.

(** A walk without a failed request: the events are fetch events other than
    error lines, the files are all the files. *)
Definition clean_walk (decode : string -> string) (c : Contents) : Prop :=
  forall path, exists evs,
    Forall (fun ev => is_fetch_event ev = true /\ is_console_error ev = false) evs /\
    forall h, getRepoFiles decode path c h = (h ++ evs, Return (all_files decode c)).

Definition clean_visit (decode : string -> string) (item : Item) : Prop :=
  exists evs,
    Forall (fun ev => is_fetch_event ev = true /\ is_console_error ev = false) evs /\
    forall files h,
      visit decode item files h = (h ++ evs, files ++ item_files decode item, Return tt).

(** A create-or-update request on the given branch. *)
Definition file_write_on (branch : string) (ev : Event) : Prop :=
  exists p m c, ev = CreateOrUpdateFileContents p m c branch.

(** The order the writes of a run can take: none; or the creation of one
    branch, then file writes on that branch, then at most one pull request
    from that branch, then at most one comment. *)
Definition write_shape (writes : list Event) : Prop :=
  writes = [] \/
  exists branch sha files tail,
    writes = CreateRef ("refs/heads/" +:+ branch) sha :: files ++ tail /\
    Forall (file_write_on branch) files /\
    (tail = [] \/
     (exists t b base, tail = [PullsCreate t b branch base]) \/
     (exists t b base n body, tail = [PullsCreate t b branch base; CreateComment n body])).

(** How a run ends: with the line of the created pull request, or with the
    two lines of the [catch] block. *)
Definition run_ending (evs : list Event) : Prop :=
  (exists before url, evs = before ++ [ConsoleLog (LogPullRequestCreated url)]) \/
  (exists before e, evs = before ++ [ConsoleError (LogErrorCreatingPR e);
                                     ConsoleError (LogErrorDetails e)]).

(** The events of a run up to the answer of the model, the walk left open. *)
Definition generate_events (env : Env) (walk : list Event) : list Event :=
  ConsoleLog LogGettingRepoFiles :: walk
  ++ [ConsoleLog (LogRepoFiles (fetched (decodeBase64 env) (contents env)));
      ConsoleLog (LogCodebaseContext
                    (codebaseContext (fetched (decodeBase64 env) (contents env))));
      Question;
      ConsoleLog (LogUserRequirements (answer env));
      GenerateText (systemMessage (fetched (decodeBase64 env) (contents env))) (answer env)].

Definition catch_lines (e : exn) : list Event :=
  [ConsoleError (LogErrorCreatingPR e); ConsoleError (LogErrorDetails e)].

Definition is_string (v : jsval) : bool :=
  match v with JString _ => true | _ => false end.

(** A host that accepts every request but the writes to one path. *)
Definition env_rejecting (path : string) (e : exn) : Env := {|
  GITHUB_OWNER := "octo";
  GITHUB_REPO := "demo";
  contents := ContentsArray [File "a.ts" "sha-a" (Return "YQ==")];
  decodeBase64 := fun s => s;
  answer := "add logging";
  generateText := fun _ _ _ => Return ("", None);
  parseStringPromise := fun _ => Return JNull;
  now := 1700000000000;
  reposGet := fun _ => Return "main";
  getRef := fun _ _ => Return "abc123";
  createRef := fun _ _ _ => Return tt;
  createOrUpdateFileContents := fun _ p _ _ _ =>
    match p with
    | JString s => if String.eqb s path then Throw e else Return tt
    | _ => Return tt
    end;
  pullsCreate := fun _ _ _ _ _ => Throw e;
  createComment := fun _ _ _ => Return tt;
  toStringOther := fun _ => Throw TypeError;
  bufferFromOther := fun _ => Throw TypeError
|}.

(** A host that accepts everything but the pull request. *)
Definition env_pull_rejected (e : exn) : Env := {|
  GITHUB_OWNER := "octo";
  GITHUB_REPO := "demo";
  contents := ContentsArray [File "a.ts" "sha-a" (Return "YQ==")];
  decodeBase64 := fun s => s;
  answer := "add logging";
  generateText := fun _ _ _ => Return ("", None);
  parseStringPromise := fun _ => Return JNull;
  now := 1700000000000;
  reposGet := fun _ => Return "main";
  getRef := fun _ _ => Return "abc123";
  createRef := fun _ _ _ => Return tt;
  createOrUpdateFileContents := fun _ _ _ _ _ => Return tt;
  pullsCreate := fun _ _ _ _ _ => Throw e;
  createComment := fun _ _ _ => Return tt;
  toStringOther := fun _ => Throw TypeError;
  bufferFromOther := fun _ => Throw TypeError
|}.

(** An environment whose model call fails, and one whose root listing
    fails. *)
Definition env_model_down (e : exn) : Env := {|
  GITHUB_OWNER := "octo";
  GITHUB_REPO := "demo";
  contents := ContentsError (RequestError "Not Found");
  decodeBase64 := fun s => s;
  answer := "add logging";
  generateText := fun _ _ _ => Throw e;
  parseStringPromise := fun _ => Return JNull;
  now := 1700000000000;
  reposGet := fun _ => Return "main";
  getRef := fun _ _ => Return "abc123";
  createRef := fun _ _ _ => Return tt;
  createOrUpdateFileContents := fun _ _ _ _ _ => Return tt;
  pullsCreate := fun _ _ _ _ _ => Return (7, "https://host/pull/7");
  createComment := fun _ _ _ => Return tt;
  toStringOther := fun _ => Throw TypeError;
  bufferFromOther := fun _ => Throw TypeError
|}.

(** A document whose title holds an element instead of text. *)
Definition document_title_element : xml :=
  Element "response" [] ""
    [Element "pullRequest" [] "" [Element "title" [] "" [leaf "b" "Bold"]; leaf "body" "B"];
     Element "files" [] "" [file_element ("a.ts", "1")]].

(** * Properties *)

Example extract_plain :
  extractXMLFromResponse "ok <response>x</response> bye" = Return "<response>x</response>".
Proof. reflexivity. Qed.

Example extract_no_open :
  extractXMLFromResponse "x</response>"
  = Throw (Error "Could not find valid XML in model response").
Proof. reflexivity. Qed.

Lemma indexOf_lower text needle : -1 <= indexOf text needle.
Proof. unfold indexOf. destruct (String.index 0 needle text); lia. Qed.

(** The guard of [extractXMLFromResponse] fires exactly when the opening tag is
    absent: the end index has the tag length added before it is compared. *)
Lemma extract_throws_iff text :
  is_Throw (extractXMLFromResponse text) = true <-> indexOf text "<response>" = -1.
Proof.
  unfold extractXMLFromResponse.
  pose proof (indexOf_lower text "</response>") as Hlo.
  change (Z.of_nat (String.length "</response>")) with 11.
  destruct (Z.eqb_spec (indexOf text "<response>") (-1)) as [->|Hne]; simpl.
  - tauto.
  - destruct (Z.eqb_spec (indexOf text "</response>" + 11) (-1)); simpl; [lia|].
    split; [discriminate | contradiction].
Qed.

(** C1 (evaluation at the failing input): with the opening tag present and the
    closing tag absent, [extractXMLFromResponse] does not throw; it returns the
    text from the opening tag up to index 10. *)
Theorem extract_missing_close_returns :
  indexOf "<response>abc" "</response>" = -1 /\
  extractXMLFromResponse "<response>abc" = Return "<response>".
Proof. split; reflexivity. Qed.

Example slice_clamps : slice "abcdef" (-3) 100 = "def" /\ slice "abcdef" 4 2 = "".
Proof. split; reflexivity. Qed.

(** The first closing tag of the text is taken, also when it stands before
    the opening tag. *)
Example extract_close_before_open :
  extractXMLFromResponse "</response> <response>x</response>" = Return "".
Proof. reflexivity. Qed.

(** ** Slugs *)

Example slug_add_logging : slugify "Add Logging" = "add-logging".
Proof. reflexivity. Qed.

Example slug_runs : slugify "  Fix: a/b  (v2)!" = "-fix-a-b-v2-".
Proof. reflexivity. Qed.

Lemma alnum_lower_fix c : alnum c = true -> lower_unit c = c.
Proof. destruct c as [[] [] [] [] [] [] [] []]; vm_compute; congruence. Qed.

Lemma replace_runs_chars b s : string_forall slug_char (replace_runs b s) = true.
Proof.
  revert b. induction s as [|c t IH]; intros b; simpl; [done|].
  destruct (alnum c) eqn:Hc; simpl.
  - unfold slug_char at 1. rewrite Hc. simpl. apply IH.
  - destruct b; simpl; apply IH.
Qed.

Lemma toLowerCase_slug_chars s :
  string_forall slug_char s = true -> toLowerCase s = s.
Proof.
  induction s as [|c t IH]; simpl; [done|].
  intros [Hc Ht]%andb_prop. rewrite IH by done. f_equal.
  unfold slug_char in Hc. apply orb_prop in Hc as [Hc|Hc].
  - by apply alnum_lower_fix.
  - apply Ascii.eqb_eq in Hc. by subst c.
Qed.

(** A second pass of the replacement finds every hyphen isolated: after a
    match the output continues with a code unit of the class or ends. *)
Lemma replace_runs_fix s :
  (forall b, replace_runs b (replace_runs true s) = replace_runs true s) /\
  replace_runs false (replace_runs false s) = replace_runs false s.
Proof.
  induction s as [|c t [IHt IHf]]; simpl; [done|].
  destruct (alnum c) eqn:Hc; simpl.
  - rewrite Hc, IHf. done.
  - split; [exact IHt|]. by rewrite (IHt true).
Qed.

(** C6: the slug of a slug is the slug itself. *)
Theorem slugify_idempotent (title : string) :
  slugify (slugify title) = slugify title.
Proof.
  unfold slugify, replace_non_alnum.
  rewrite toLowerCase_slug_chars by apply replace_runs_chars.
  apply replace_runs_fix.
Qed.

(** ** Branch names *)

Lemma string_forall_app p s t :
  string_forall p (s +:+ t) = string_forall p s && string_forall p t.
Proof. induction s as [|c s IH]; simpl; [done|]. by rewrite IH, andb_assoc. Qed.

Lemma string_forall_impl (p q : ascii -> bool) s :
  (forall c, p c = true -> q c = true) ->
  string_forall p s = true -> string_forall q s = true.
Proof.
  intros Hpq. induction s as [|c s IH]; simpl; [done|].
  intros [Hc Hs]%andb_prop. by rewrite (Hpq c Hc), IH.
Qed.

Lemma is_digit_slug_char c : is_digit c = true -> slug_char c = true.
Proof. destruct c as [[] [] [] [] [] [] [] []]; vm_compute; congruence. Qed.

Lemma slug_char_not_upper c : slug_char c = true -> negb (is_upper c) = true.
Proof. destruct c as [[] [] [] [] [] [] [] []]; vm_compute; congruence. Qed.

Lemma pretty_N_char_digit x : is_digit (pretty_N_char x) = true.
Proof. unfold pretty_N_char. by repeat case_match. Qed.

Lemma pretty_N_go_digits n s :
  string_forall is_digit s = true -> string_forall is_digit (pretty_N_go n s) = true.
Proof.
  revert s. induction (N.lt_wf_0 n) as [n _ IH]; intros s Hs.
  destruct (decide (n = 0)%N) as [->|Hn]; [by rewrite pretty_N_go_0|].
  rewrite pretty_N_go_step by lia. apply IH.
  - apply N.div_lt; lia.
  - simpl. by rewrite pretty_N_char_digit.
Qed.

Lemma pretty_N_go_nonempty n c s : pretty_N_go n (String c s) <> "".
Proof.
  revert c s. induction (N.lt_wf_0 n) as [n _ IH]; intros c s.
  destruct (decide (n = 0)%N) as [->|Hn]; [by rewrite pretty_N_go_0|].
  rewrite pretty_N_go_step by lia. apply IH, N.div_lt; lia.
Qed.

(** The decimal print of a timestamp that is not negative: digits, at least
    one. *)
Lemma pretty_timestamp (now : Z) :
  0 <= now -> pretty now <> "" /\ string_forall is_digit (pretty now) = true.
Proof.
  intros Hnow. destruct now as [|p|p]; [done| |lia].
  unfold pretty, pretty_Z, pretty, pretty_positive, pretty, pretty_N.
  destruct (decide (N.pos p = 0)%N) as [|_]; [done|].
  rewrite pretty_N_go_step by lia. split.
  - apply pretty_N_go_nonempty.
  - apply pretty_N_go_digits. simpl. by rewrite pretty_N_char_digit.
Qed.

(** C10: with a timestamp that is not negative, the branch name is
    [feature/], a slug of lower-case letters, digits and hyphens, a hyphen,
    and a decimal number; behind the prefix no code unit is outside
    [[a-z0-9-]], none is an upper-case letter. *)
Theorem branch_name_shape (title : string) (now : Z) :
  0 <= now ->
  exists slug timestamp,
    newBranch title now = "feature/" +:+ slug +:+ "-" +:+ timestamp /\
    slug = slugify title /\
    string_forall slug_char slug = true /\
    timestamp <> "" /\
    string_forall is_digit timestamp = true /\
    string_forall slug_char (slug +:+ "-" +:+ timestamp) = true /\
    string_forall (fun c => negb (is_upper c)) (slug +:+ "-" +:+ timestamp) = true.
Proof.
  intros Hnow. destruct (pretty_timestamp now Hnow) as [Hne Hdigits].
  exists (slugify title), (pretty now).
  assert (string_forall slug_char (slugify title) = true) as Hslug
    by apply replace_runs_chars.
  assert (string_forall slug_char (slugify title +:+ "-" +:+ pretty now) = true) as Hall.
  { rewrite !string_forall_app, Hslug. simpl.
    by rewrite (string_forall_impl _ _ _ is_digit_slug_char Hdigits). }
  repeat split; try done.
  by apply (string_forall_impl _ _ _ slug_char_not_upper).
Qed.

Lemma branch_name_shape_witness :
  exists slug timestamp,
    newBranch "Add Logging" 1700000000000 = "feature/" +:+ slug +:+ "-" +:+ timestamp /\
    slug = slugify "Add Logging" /\
    string_forall slug_char slug = true /\
    timestamp <> "" /\
    string_forall is_digit timestamp = true /\
    string_forall slug_char (slug +:+ "-" +:+ timestamp) = true /\
    string_forall (fun c => negb (is_upper c)) (slug +:+ "-" +:+ timestamp) = true.
Proof. apply (branch_name_shape "Add Logging" 1700000000000). lia. Defined.

Example branch_add_logging :
  newBranch "Add Logging" 1700000000000 = "feature/add-logging-1700000000000".
Proof. reflexivity. Qed.

(** ** Repository fetcher *)

Create HintDb fetch.

Section Fetcher.
Variable decode : string -> string.

Lemma getRepoFiles_unfold path c h :
  getRepoFiles decode path c h =
  let h := h ++ [GetContent path] in
  let '(h, files, outcome) :=
    match c with
    | ContentsError e => (h, [], Throw e)
    | ContentsArray items => visit_each decode items [] h
    | ContentsObject item => visit decode item [] h
    end in
  match outcome with
  | Return _ => (h, Return files)
  | Throw e => (h ++ [ConsoleError (LogErrorReading path e)], Return files)
  end.
Proof.
  destruct c as [e|items|item]; try reflexivity.
  simpl. generalize (@nil RepoFile.t) (h ++ [GetContent path]).
  induction items as [|item rest IH]; intros files h'; [reflexivity|].
  simpl. destruct (visit decode item files h') as [[h1 files1] [[]|e]]; [|reflexivity].
  apply IH.
Qed.

Lemma frame_loop_walk run path :
  loop_frame run ->
  exists files evs,
    Forall (fun ev => is_fetch_event ev = true) evs /\
    forall h,
      (let '(h, files, outcome) := run [] (h ++ [GetContent path]) in
       match outcome with
       | Return _ => (h, Return files)
       | Throw e => (h ++ [ConsoleError (LogErrorReading path e)], Return files)
       end) = (h ++ evs, Return files).
Proof.
  intros (evs & more & outcome & Hq & Hrun). exists more.
  destruct outcome as [[]|e].
  - exists (GetContent path :: evs). split; [by constructor|].
    intros h. rewrite Hrun. simpl. by rewrite <- app_assoc.
  - exists (GetContent path :: evs ++ [ConsoleError (LogErrorReading path e)]).
    split; [constructor; [done|apply Forall_app; by repeat constructor]|].
    intros h. rewrite Hrun. simpl. by rewrite <- !app_assoc.
Qed.

Lemma frame_each items :
  Forall (fun item => loop_frame (visit decode item)) items ->
  loop_frame (visit_each decode items).
Proof.
  induction 1 as [|item rest (evs & more & outcome & Hq & Hv) _
                    (evs' & more' & outcome' & Hq' & IH)].
  - exists [], [], (Return tt). split; [constructor|].
    intros files h. simpl. by rewrite !app_nil_r.
  - destruct outcome as [[]|e].
    + exists (evs ++ evs'), (more ++ more'), outcome'. split; [by apply Forall_app|].
      intros files h. simpl. rewrite Hv, IH. by rewrite !app_assoc.
    + exists evs, more, (Throw e). split; [done|].
      intros files h. simpl. by rewrite Hv.
Qed.

Lemma frame_error e : walk_frame decode (ContentsError e).
Proof.
  exists []. intros path. exists [GetContent path; ConsoleError (LogErrorReading path e)].
  split; [by repeat constructor|].
  intros h. rewrite getRepoFiles_unfold. simpl. by rewrite <- app_assoc.
Qed.

Lemma frame_array items :
  Forall (fun item => loop_frame (visit decode item)) items ->
  walk_frame decode (ContentsArray items).
Proof.
  intros Hall%frame_each.
  destruct (frame_loop_walk _ "" Hall) as (files & _).
  destruct Hall as (evs & more & outcome & Hq & Hrun).
  exists more. intros path.
  destruct (frame_loop_walk (visit_each decode items) path) as (files' & evs' & Hq' & Hw).
  { by exists evs, more, outcome. }
  exists evs'. split; [done|]. intros h. rewrite getRepoFiles_unfold. simpl.
  rewrite Hw. specialize (Hw h). rewrite Hrun in Hw.
  destruct outcome; by inversion Hw.
Qed.

Lemma frame_object item :
  loop_frame (visit decode item) -> walk_frame decode (ContentsObject item).
Proof.
  intros (evs & more & outcome & Hq & Hrun).
  exists more. intros path.
  destruct (frame_loop_walk (visit decode item) path) as (files' & evs' & Hq' & Hw).
  { by exists evs, more, outcome. }
  exists evs'. split; [done|]. intros h. rewrite getRepoFiles_unfold. simpl.
  rewrite Hw. specialize (Hw h). rewrite Hrun in Hw.
  destruct outcome; by inversion Hw.
Qed.

Lemma frame_file p sha blob : loop_frame (visit decode (File p sha blob)).
Proof.
  destruct blob as [b|e].
  - exists [ConsoleLog (LogItem p sha); GetBlob sha], [RepoFile.mk p (decode b) sha], (Return tt).
    split; [by repeat constructor|].
    intros files h. simpl. by rewrite <- app_assoc.
  - exists [ConsoleLog (LogItem p sha); GetBlob sha], [], (Throw e).
    split; [by repeat constructor|].
    intros files h. simpl. by rewrite <- app_assoc, app_nil_r.
Qed.

Lemma frame_dir p sha listing :
  walk_frame decode listing -> loop_frame (visit decode (Dir p sha listing)).
Proof.
  intros (sub & Hsub). destruct (Hsub p) as (evs & Hq & Hw).
  exists (ConsoleLog (LogItem p sha) :: evs), sub, (Return tt).
  split; [by constructor|].
  intros files h. simpl. rewrite Hw. by rewrite <- app_assoc.
Qed.

Lemma frame_other p sha : loop_frame (visit decode (Other p sha)).
Proof.
  exists [ConsoleLog (LogItem p sha)], [], (Return tt).
  split; [by repeat constructor|].
  intros files h. simpl. by rewrite app_nil_r.
Qed.

Hint Resolve frame_error frame_array frame_object frame_file frame_dir
  frame_other : fetch.

Lemma getRepoFiles_frame c : walk_frame decode c.
Proof.
  apply (Contents_tree_ind (walk_frame decode) (fun item => loop_frame (visit decode item)));
    auto with fetch.
Qed.

Lemma visit_frame item : loop_frame (visit decode item).
Proof.
  apply (Item_tree_ind (walk_frame decode) (fun item => loop_frame (visit decode item)));
    auto with fetch.
Qed.

Lemma visit_each_frame items : loop_frame (visit_each decode items).
Proof. apply frame_each, Forall_forall. intros item _. apply visit_frame. Qed.

Lemma getRepoFiles_files path c h :
  (getRepoFiles decode path c h).2 = Return (fetched decode c).
Proof.
  destruct (getRepoFiles_frame c) as (files & Hw). unfold fetched.
  destruct (Hw path) as (evs & _ & ->). destruct (Hw "") as (evs' & _ & ->). done.
Qed.

Lemma getRepoFiles_run path c :
  exists evs, Forall (fun ev => is_fetch_event ev = true) evs /\
    forall h, getRepoFiles decode path c h = (h ++ evs, Return (fetched decode c)).
Proof.
  destruct (getRepoFiles_frame c) as (files & Hw).
  destruct (Hw path) as (evs & Hq & Hrun). exists evs. split; [done|].
  intros h. pose proof (getRepoFiles_files path c h) as Hf.
  rewrite Hrun in Hf |- *. simpl in Hf. by rewrite Hf.
Qed.

Lemma visit_each_files items files h :
  (visit_each decode items files h).1.2 = files ++ fetched decode (ContentsArray items).
Proof.
  unfold fetched. rewrite getRepoFiles_unfold. simpl.
  destruct (visit_each_frame items) as (evs & more & outcome & _ & Hv).
  rewrite !Hv. simpl. by destruct outcome.
Qed.

Lemma fetched_array items :
  fetched decode (ContentsArray items) = (visit_each decode items [] []).1.2.
Proof. by rewrite visit_each_files. Qed.

Lemma visit_each_blobs_ok items files h :
  blobs_ok items = true -> (visit_each decode items files h).2 = Return tt.
Proof.
  revert files h. induction items as [|item rest IH]; intros files h Hok; [done|].
  simpl in Hok. apply andb_prop in Hok as [Hitem Hrest]. simpl.
  destruct item as [p sha [b|e]|p sha listing|p sha]; simpl; try done.
  - by apply IH.
  - destruct (getRepoFiles_run p listing) as (evs & _ & ->). by apply IH.
  - by apply IH.
Qed.

Lemma visit_each_app before after files h :
  visit_each decode (before ++ after) files h =
  match visit_each decode before files h with
  | (h', files', Return _) => visit_each decode after files' h'
  | stopped => stopped
  end.
Proof.
  revert files h. induction before as [|item rest IH]; intros files h; [done|].
  simpl. destruct (visit decode item files h) as [[h1 files1] [[]|e]]; [apply IH|done].
Qed.

(** C2 (amended): a walk never throws; a directory whose listing fails
    contributes nothing; a failed blob request ends the walk of the directory
    that lists the blob, which keeps the files of the entries before it and
    takes none from the entries after it; a subdirectory hands its files to
    the parent whatever happened inside it, and the parent goes on with the
    next entry; the error is logged. *)
Theorem getRepoFiles_best_effort :
  (forall path c h, (getRepoFiles decode path c h).2 = Return (fetched decode c)) /\
  (forall e, fetched decode (ContentsError e) = []) /\
  fetched decode (ContentsArray []) = [] /\
  (forall p sha b rest,
      fetched decode (ContentsArray (File p sha (Return b) :: rest))
      = RepoFile.mk p (decode b) sha :: fetched decode (ContentsArray rest)) /\
  (forall p sha e rest,
      fetched decode (ContentsArray (File p sha (Throw e) :: rest)) = []) /\
  (forall p sha listing rest,
      fetched decode (ContentsArray (Dir p sha listing :: rest))
      = fetched decode listing ++ fetched decode (ContentsArray rest)) /\
  (forall p sha rest,
      fetched decode (ContentsArray (Other p sha :: rest))
      = fetched decode (ContentsArray rest)) /\
  (forall item, fetched decode (ContentsObject item) = fetched decode (ContentsArray [item])) /\
  (forall path e h,
      (getRepoFiles decode path (ContentsError e) h).1
      = h ++ [GetContent path; ConsoleError (LogErrorReading path e)]) /\
  (forall path before p sha e after h,
      blobs_ok before = true ->
      exists evs,
        (getRepoFiles decode path (ContentsArray (before ++ File p sha (Throw e) :: after)) h).1
        = h ++ evs ++ [GetBlob sha; ConsoleError (LogErrorReading path e)]).
Proof.
  split; [apply getRepoFiles_files|].
  split; [done|]. split; [done|].
  split.
  { intros. rewrite !fetched_array. simpl. by rewrite visit_each_files, <- fetched_array. }
  split; [done|].
  split.
  { intros. rewrite (fetched_array (_ :: _)). simpl.
    destruct (getRepoFiles_run p listing) as (evs & _ & ->).
    by rewrite visit_each_files. }
  split.
  { intros. rewrite (fetched_array (_ :: _)). simpl.
    by rewrite visit_each_files. }
  split.
  { intros item. unfold fetched. rewrite !getRepoFiles_unfold. simpl.
    by destruct (visit decode item [] [GetContent ""]) as [[h1 files1] [[]|e]]. }
  split.
  { intros. rewrite getRepoFiles_unfold. simpl. by rewrite <- app_assoc. }
  intros path before p sha e after h Hok.
  rewrite getRepoFiles_unfold. simpl. rewrite visit_each_app.
  pose proof (visit_each_blobs_ok before [] (h ++ [GetContent path]) Hok) as Hret.
  destruct (visit_each_frame before) as (evs & more & outcome & _ & Hv).
  rewrite Hv in Hret |- *. simpl in Hret. subst outcome. simpl.
  exists (GetContent path :: evs ++ [ConsoleLog (LogItem p sha)]).
  simpl. by rewrite <- !app_assoc.
Qed.
End Fetcher.

Lemma getRepoFiles_best_effort_witness :
  blobs_ok [File "d/a.ts" "sha-a" (Return "YQ==")] = true /\
  exists evs,
    (getRepoFiles (fun s => s) "d" listing_second_blob_fails []).1
    = [] ++ evs ++ [GetBlob "sha-b"; ConsoleError (LogErrorReading "d" (RequestError "Not Found"))].
Proof.
  split; [reflexivity|].
  destruct (getRepoFiles_best_effort (fun s => s)) as (_ & _ & _ & _ & _ & _ & _ & _ & _ & H).
  apply (H "d" [File "d/a.ts" "sha-a" (Return "YQ==")] "d/b.ts" "sha-b"
           (RequestError "Not Found") [File "d/c.ts" "sha-c" (Return "Yw==")] []).
  reflexivity.
Defined.

(** C2 (counterexample): a directory whose second blob request fails still
    contributes its first file, and a failed blob request in a directory keeps
    the readable subdirectory listed after it out of the result. *)
Lemma failing_subtree_contributes :
  has_error listing_second_blob_fails = true /\
  getRepoFiles (fun s => s) "d" listing_second_blob_fails []
  = ([GetContent "d";
      ConsoleLog (LogItem "d/a.ts" "sha-a"); GetBlob "sha-a";
      ConsoleLog (LogItem "d/b.ts" "sha-b"); GetBlob "sha-b";
      ConsoleError (LogErrorReading "d" (RequestError "Not Found"))],
     Return [RepoFile.mk "d/a.ts" "YQ==" "sha-a"]) /\
  getRepoFiles (fun s => s) "" listing_first_blob_fails []
  = ([GetContent "";
      ConsoleLog (LogItem "x.ts" "sha-x"); GetBlob "sha-x";
      ConsoleError (LogErrorReading "" (RequestError "Not Found"))],
     Return []).
Proof. repeat split. Qed.

(** ** Response parser on documents *)

Section Grouping.
Variable k : string.

Lemma assoc_assignOrPush obj key v :
  assoc k (assignOrPush obj key v) =
  if String.eqb key k
  then Some (JArray match assoc k obj with
                    | Some (JArray items) => items ++ [v]
                    | Some old => [old; v]
                    | None => [v]
                    end)
  else assoc k obj.
Proof.
  induction obj as [|[k' old] rest IH]; simpl.
  - by destruct (String.eqb_spec key k).
  - destruct (String.eqb_spec k' key) as [->|Hne]; simpl.
    + destruct (String.eqb_spec key k) as [->|Hne']; [|done].
      by destruct old.
    + destruct (String.eqb_spec k' k) as [->|Hne'].
      * destruct (String.eqb_spec key k); [congruence|done].
      * apply IH.
Qed.

Lemma assoc_grouped kvs :
  assoc k (fold_left (fun obj kv => assignOrPush obj kv.1 kv.2) kvs []) =
  match map snd (List.filter (fun kv : string * jsval => String.eqb kv.1 k) kvs) with
  | [] => None
  | named => Some (JArray named)
  end.
Proof.
  induction kvs as [|[key v] kvs IH] using rev_ind; [done|].
  rewrite fold_left_app. simpl.
  rewrite assoc_assignOrPush, IH.
  rewrite List.filter_app, map_app. simpl.
  destruct (String.eqb key k); simpl.
  - destruct (map snd _); simpl; done.
  - by rewrite app_nil_r.
Qed.
End Grouping.

Lemma values_children k children :
  map snd (List.filter (fun kv : string * jsval => String.eqb kv.1 k)
             (map (fun c => (xml_name c, xml2js_value c)) children))
  = map xml2js_value (List.filter (fun c => String.eqb (xml_name c) k) children).
Proof.
  induction children as [|c rest IH]; simpl; [done|].
  destruct (String.eqb (xml_name c) k); simpl; by rewrite IH.
Qed.

Lemma assoc_cons_ne k k' v rest :
  k' <> k -> assoc k ((k', v) :: rest) = assoc k rest.
Proof. intros Hne. cbn [assoc]. by destruct (String.eqb_spec k' k). Qed.

(** A property read on the value of an element finds the children of that
    name, grouped in document order. *)
Lemma js_get_element x k :
  k <> "$" -> k <> "_" -> js_get (xml2js_value x) k = Return (group k x).
Proof.
  intros Hattr Htext. destruct x as [name attrs text children].
  pose proof (assoc_grouped k (map (fun c => (xml_name c, xml2js_value c)) children)) as Hk.
  assert (group k (Element name attrs text children)
          = match map snd (List.filter (fun kv : string * jsval => String.eqb kv.1 k)
                             (map (fun c => (xml_name c, xml2js_value c)) children)) with
            | [] => JUndefined
            | named => JArray named
            end) as ->.
  { rewrite values_children. unfold group, children_named. simpl xml_children.
    by destruct (List.filter _ children). }
  simpl in Hk. simpl xml2js_value.
  set (kids := fold_left _ _ _) in *.
  set (named := map snd _) in *.
  assert (assoc k (match attrs with
                   | [] => kids
                   | _ => ("$", JObject (map (fun a => (a.1, JString a.2)) attrs)) :: kids
                   end) = assoc k kids) as Hfields.
  { destruct attrs; [done|]. by apply assoc_cons_ne. }
  destruct (match attrs with [] => kids | _ => _ end) as [|field fields] eqn:Hf.
  - cbn [assoc] in Hfields. rewrite <- Hfields in Hk. cbn [js_get]. by destruct named.
  - assert (js_get (JObject (field :: fields)) k
            = Return match named with [] => JUndefined | j :: l => JArray (j :: l) end) as Hobj.
    { cbn [js_get]. rewrite Hfields, Hk. by destruct named. }
    destruct (string_forall is_space text); [exact Hobj|].
    rewrite <- Hobj. cbn [js_get]. by rewrite assoc_cons_ne.
Qed.

Ltac result_simpl :=
  unfold mbind, Result_bind, mret, Result_ret in *; cbn beta iota in *.

Lemma js_index0_group k x :
  js_index0 (group k x) =
  match first_child k x with
  | Some child => Return (xml2js_value child)
  | None => Throw TypeError
  end.
Proof. unfold group, first_child. by destruct (children_named k x). Qed.

Ltac read_child :=
  cbn beta iota; rewrite js_get_element by done; result_simpl;
  rewrite js_index0_group;
  match goal with
  | |- context [first_child ?k ?x] => destruct (first_child k x); [|done]
  end; cbn beta iota.

Lemma file_callback_element file :
  file_callback (xml2js_value file) = of_option (decode_file file).
Proof.
  unfold file_callback, decode_file. result_simpl.
  unfold option_bind. do 2 read_child. done.
Qed.

Lemma mapM_file_callback files :
  mapM file_callback (map xml2js_value files) = of_option (mapM decode_file files).
Proof.
  induction files as [|file rest IH]; [done|].
  simpl. rewrite file_callback_element, IH.
  destruct (decode_file file); [|done]. simpl.
  by destruct (mapM decode_file rest).
Qed.

Lemma js_get_root root :
  js_get (xml2js_result root) "response" =
  Return (if String.eqb (xml_name root) "response" then xml2js_value root else JUndefined).
Proof. unfold xml2js_result. cbn [js_get assoc]. by destruct (String.eqb _ _). Qed.

(** On the value xml2js builds for a document, [parseModelResponse] returns
    what the document stands for, and throws when it stands for nothing. *)
Lemma parse_document parser xmlResponse root :
  parser xmlResponse = Return (xml2js_result root) ->
  parseModelResponse parser xmlResponse = of_option (decode_document root).
Proof.
  intros Hparser. unfold parseModelResponse, decode_document. rewrite Hparser.
  result_simpl. unfold option_bind. rewrite js_get_root.
  destruct (String.eqb (xml_name root) "response"); [|done].
  read_child. rewrite js_get_element by done. unfold group.
  destruct (children_named "file" x) as [|file named]; [done|].
  cbn [js_map]. rewrite mapM_file_callback.
  destruct (mapM decode_file (file :: named)) as [edits|]; [|done].
  cbn [of_option]. do 3 read_child. done.
Qed.

Lemma valid_files_decode pad files edits :
  Forall2 valid_file files edits ->
  children_named "file" (Element "files" [] pad files) = files /\
  mapM decode_file files = Some (map edit_of edits).
Proof.
  unfold children_named. simpl xml_children.
  induction 1 as [|file edit files edits (pad' & _ & ->) _ [IHn IHd]]; [done|].
  split.
  - simpl. by rewrite IHn.
  - change (mapM decode_file (?f :: ?l)) with
      (decode_file f ≫= fun y => mapM decode_file l ≫= fun k => mret (y :: k)).
    rewrite IHd. reflexivity.
Qed.

Lemma decode_valid_document root title body edits :
  valid_document root title body edits -> edits <> [] ->
  decode_document root
  = Some (GeneratedContent.mk (map edit_of edits)
            (PRMetadata.mk (JString title) (JString body))).
Proof.
  intros (pad1 & pad2 & pad3 & files & _ & _ & _ & Hfiles & ->) Hne.
  destruct (valid_files_decode pad3 files edits Hfiles) as [Hnamed Hdec].
  unfold decode_document. simpl xml_name. cbn [String.eqb Ascii.eqb Bool.eqb].
  change (first_child "files" _) with (Some (Element "files" [] pad3 files)).
  change (first_child "pullRequest" _)
    with (Some (Element "pullRequest" [] pad2 [leaf "title" title; leaf "body" body])).
  cbn [mbind option_bind]. rewrite Hnamed.
  destruct files as [|file files]; [inversion Hfiles; by subst|].
  rewrite Hdec. reflexivity.
Qed.

(** C3 (amended): a response whose block is a document of the schema with
    K >= 1 file elements parses to the K edits in document order, with the
    title and the body; a text without the opening tag fails at the extraction;
    a block the XML parser rejects fails with the parser's error. *)
Theorem parse_valid_block (parser : string -> Result jsval) :
  (forall text xmlResponse root title body edits,
      edits <> [] ->
      extractXMLFromResponse text = Return xmlResponse ->
      parser xmlResponse = Return (xml2js_result root) ->
      valid_document root title body edits ->
      (extractXMLFromResponse text ≫= parseModelResponse parser)
      = Return (GeneratedContent.mk (map edit_of edits)
                  (PRMetadata.mk (JString title) (JString body)))) /\
  (forall text,
      indexOf text "<response>" = -1 ->
      (extractXMLFromResponse text ≫= parseModelResponse parser)
      = Throw (Error "Could not find valid XML in model response")) /\
  (forall text xmlResponse e,
      extractXMLFromResponse text = Return xmlResponse ->
      parser xmlResponse = Throw e ->
      (extractXMLFromResponse text ≫= parseModelResponse parser) = Throw e).
Proof.
  repeat split.
  - intros text xmlResponse root title body edits Hne -> Hparser Hvalid.
    result_simpl. rewrite (parse_document _ _ _ Hparser).
    by rewrite (decode_valid_document _ _ _ _ Hvalid Hne).
  - intros text Hopen. unfold extractXMLFromResponse. by rewrite Hopen.
  - intros text xmlResponse e -> Hparser. result_simpl.
    unfold parseModelResponse. by rewrite Hparser.
Qed.

Lemma parse_valid_block_witness :
  extractXMLFromResponse
    "Here you go: <response><pullRequest><title>T</title><body>B</body></pullRequest><files><file><path>a.ts</path><content>1</content></file><file><path>b.ts</path><content>2</content></file></files></response>"
  ≫= parseModelResponse
       (fun _ => Return (xml2js_result (response_document "T" "B" [("a.ts", "1"); ("b.ts", "2")])))
  = Return (GeneratedContent.mk
              [FileContent.mk (JString "a.ts") (JString "1");
               FileContent.mk (JString "b.ts") (JString "2")]
              (PRMetadata.mk (JString "T") (JString "B"))).
Proof.
  destruct (parse_valid_block
              (fun _ => Return (xml2js_result
                                  (response_document "T" "B" [("a.ts", "1"); ("b.ts", "2")]))))
    as (Hvalid & _ & _).
  eapply (Hvalid _ _ _ "T" "B" [("a.ts", "1"); ("b.ts", "2")]).
  - discriminate.
  - reflexivity.
  - reflexivity.
  - exists "", "", "", (map file_element [("a.ts", "1"); ("b.ts", "2")]).
    repeat split; try reflexivity.
    repeat constructor; exists ""; split; reflexivity.
Defined.

(** C3 (counterexample): a block of the schema with no file element does not
    parse to an empty list of edits; [parseModelResponse] throws. *)
Lemma empty_files_block_fails :
  valid_document (response_document "T" "B" []) "T" "B" [] /\
  extractXMLFromResponse response_without_files = Return response_without_files /\
  xml2js_result (response_document "T" "B" [])
  = JObject [("response",
              JObject [("pullRequest",
                        JArray [JObject [("title", JArray [JString "T"]);
                                         ("body", JArray [JString "B"])]]);
                       ("files", JArray [JString ""])])] /\
  parseModelResponse (fun _ => Return (xml2js_result (response_document "T" "B" [])))
    response_without_files
  = Throw TypeError.
Proof.
  split; [|repeat split].
  exists "", "", "", []. repeat split; constructor.
Qed.

Lemma mapM_decode_file_complete files :
  match mapM decode_file files with Some _ => true | None => false end
  = forallb (fun file => has_child "path" file && has_child "content" file) files.
Proof.
  induction files as [|file rest IH]; [done|].
  change (mapM decode_file (file :: rest)) with
    (decode_file file ≫= fun y => mapM decode_file rest ≫= fun k => mret (y :: k)).
  simpl forallb. rewrite <- IH. unfold decode_file, has_child, first_child.
  destruct (children_named "path" file) as [|p ps]; [cbn; reflexivity|].
  destruct (children_named "content" file) as [|c cs]; [cbn; reflexivity|].
  cbn. by destruct (mapM _ rest).
Qed.

Lemma decode_document_complete root :
  match decode_document root with Some _ => true | None => false end = complete root.
Proof.
  unfold decode_document, complete.
  destruct (String.eqb (xml_name root) "response"); [|done].
  cbn [andb]. unfold mbind, option_bind.
  destruct (first_child "files" root) as [files|]; [|done].
  unfold has_child at 1.
  pose proof (mapM_decode_file_complete (children_named "file" files)) as Hfiles.
  destruct (children_named "file" files) as [|file named]; [done|].
  rewrite <- Hfiles. destruct (mapM decode_file (file :: named)); [|done].
  cbn [andb].
  destruct (first_child "pullRequest" root) as [pullRequest|]; [|done].
  unfold has_child, first_child.
  destruct (children_named "title" pullRequest); [done|].
  by destruct (children_named "body" pullRequest).
Qed.

(** C4 (amended): [parseModelResponse] fails when the XML parser rejects the
    text and, on a document, exactly when one of the elements it reads is
    missing; whatever else the document holds does not make it fail. *)
Theorem parse_fails_iff_incomplete (parser : string -> Result jsval) (xmlResponse : string) :
  (forall e, parser xmlResponse = Throw e ->
             parseModelResponse parser xmlResponse = Throw e) /\
  (forall root, parser xmlResponse = Return (xml2js_result root) ->
                is_Throw (parseModelResponse parser xmlResponse) = negb (complete root)).
Proof.
  split.
  - intros e Hparser. unfold parseModelResponse. by rewrite Hparser.
  - intros root Hparser. rewrite (parse_document _ _ _ Hparser).
    rewrite <- decode_document_complete. by destruct (decode_document root).
Qed.

Lemma parse_fails_iff_incomplete_witness :
  is_Throw (parseModelResponse
              (fun _ => Return (xml2js_result (Element "response" [] ""
                                  [Element "files" [] "" [file_element ("a.ts", "1")]])))
              "<response><files><file><path>a.ts</path><content>1</content></file></files></response>")
  = negb (complete (Element "response" [] ""
                      [Element "files" [] "" [file_element ("a.ts", "1")]])).
Proof.
  apply (parse_fails_iff_incomplete
           (fun _ => Return (xml2js_result (Element "response" [] ""
                               [Element "files" [] "" [file_element ("a.ts", "1")]])))).
  reflexivity.
Defined.

(** C4 (counterexample): a document with an attribute, text beside the
    children, an unknown element, an extra child and a second [pullRequest]
    parses without an error. *)
Lemma extra_structure_parses :
  extractXMLFromResponse response_with_extras = Return response_with_extras /\
  parseModelResponse (fun _ => Return (xml2js_result document_with_extras))
    response_with_extras
  = Return (GeneratedContent.mk
              [FileContent.mk (JString "a.ts") (JString "1")]
              (PRMetadata.mk (JString "T") (JString "B"))).
Proof. split; reflexivity. Qed.

(** ** The monad of the program *)

Lemma run_bind {A B} (m : M A) (f : A -> M B) h :
  (m ≫= f) h =
  match m h with
  | (h', Return a) => f a h'
  | (h', Throw e) => (h', Throw e)
  end.
Proof. reflexivity. Qed.

Section Emits.
Variable P : Event -> Prop.

Lemma emits_ret {A} (a : A) : emits P (mret a).
Proof. intros h. exists []. by rewrite app_nil_r. Qed.

Lemma emits_lift {A} (r : Result A) : emits P (lift r).
Proof. intros h. exists []. by rewrite app_nil_r. Qed.

Lemma emits_emit ev : P ev -> emits P (emit ev).
Proof. intros Hev h. exists [ev]. split; [done|by constructor]. Qed.

Lemma emits_request {A} ev (reply : list Event -> Result A) :
  P ev -> emits P (request ev reply).
Proof. intros Hev h. exists [ev]. split; [done|by constructor]. Qed.

Lemma emits_bind {A B} (m : M A) (f : A -> M B) :
  emits P m -> (forall a, emits P (f a)) -> emits P (m ≫= f).
Proof.
  intros Hm Hf h. rewrite run_bind.
  destruct (Hm h) as (evs & Hh & Hevs).
  destruct (m h) as [h' [a|e]]; simpl in Hh; subst h'.
  - destruct (Hf a (h ++ evs)) as (evs' & -> & Hevs').
    exists (evs ++ evs'). split; [by rewrite app_assoc|by apply Forall_app].
  - by exists evs.
Qed.

Lemma emits_try_catch {A} (body : M A) (handler : exn -> M A) :
  emits P body -> (forall e, emits P (handler e)) -> emits P (try_catch body handler).
Proof.
  intros Hm Hf h. unfold try_catch.
  destruct (Hm h) as (evs & Hh & Hevs).
  destruct (body h) as [h' [a|e]]; simpl in Hh; subst h'.
  - by exists evs.
  - destruct (Hf e (h ++ evs)) as (evs' & -> & Hevs').
    exists (evs ++ evs'). split; [by rewrite app_assoc|by apply Forall_app].
Qed.

Lemma emits_for_of {A} (items : list A) (body : A -> M unit) :
  (forall item, emits P (body item)) -> emits P (for_of items body).
Proof.
  intros Hbody. induction items as [|item rest IH]; simpl.
  - apply emits_ret.
  - apply emits_bind; [apply Hbody|]. intros _. apply IH.
Qed.
End Emits.

Ltac emits_step :=
  first [ apply emits_bind; [|intros ?]
        | apply emits_for_of; intros ?
        | apply emits_ret | apply emits_lift
        | apply emits_emit | apply emits_request ].

Ltac norm_app := repeat first [rewrite <- app_assoc | progress cbn [app]].

(** ** The part up to the answer of the model *)

Lemma generate_run env :
  exists evs,
    Forall (fun ev => is_fetch_event ev = true) evs /\
    forall h,
      generate env h =
      let files := fetched (decodeBase64 env) (contents env) in
      let h' := h ++ ConsoleLog LogGettingRepoFiles :: evs
                  ++ [ConsoleLog (LogRepoFiles files);
                      ConsoleLog (LogCodebaseContext (codebaseContext files));
                      Question;
                      ConsoleLog (LogUserRequirements (answer env))] in
      (h' ++ [GenerateText (systemMessage files) (answer env)],
       generateText env h' (systemMessage files) (answer env)).
Proof.
  destruct (getRepoFiles_run (decodeBase64 env) "" (contents env)) as (evs & Hevs & Hrun).
  exists evs. split; [done|]. intros h.
  unfold generate, getUserRequirements, request, emit.
  rewrite run_bind. cbn beta iota. rewrite run_bind, Hrun. cbn beta iota.
  repeat (rewrite run_bind; cbn beta iota).
  cbn zeta. norm_app. reflexivity.
Qed.

Lemma codebaseContext_blocks files : codebaseContext files = rendered_blocks files.
Proof.
  unfold codebaseContext.
  induction files as [|file [|next rest] IH]; [done|done|].
  change (rendered_blocks (file :: next :: rest))
    with (block file +:+ newline +:+ newline +:+ rendered_blocks (next :: rest)).
  rewrite <- IH. reflexivity.
Qed.

Lemma codebaseContext_blocks_system files :
  systemMessage files = instructions +:+ rendered_blocks files.
Proof. unfold systemMessage. by rewrite codebaseContext_blocks. Qed.

Lemma try_bind_emits {A B} (P : Event -> Prop) (m : M A) (f : A -> M B)
    (handler : exn -> M B) h h1 outcome :
  m h = (h1, outcome) ->
  (forall a, emits P (f a)) -> (forall e, emits P (handler e)) ->
  exists evs, (try_catch (m ≫= f) handler h).1 = h1 ++ evs /\ Forall P evs.
Proof.
  intros Hm Hf Hhandler. unfold try_catch. rewrite run_bind, Hm.
  destruct outcome as [a|e].
  - destruct (Hf a h1) as (evs & Hh & Hevs).
    destruct (f a h1) as [h2 [b|e]]; simpl in Hh; subst h2.
    + by exists evs.
    + destruct (Hhandler e (h1 ++ evs)) as (evs' & -> & Hevs').
      exists (evs ++ evs'). split; [by rewrite app_assoc|by apply Forall_app].
  - apply Hhandler.
Qed.

Lemma report_no_generate e : emits (fun ev => is_generate ev = false) (report e).
Proof. unfold report. repeat emits_step; reflexivity. Qed.

(** C9: every run calls the model once; the system message is the fixed text
    followed by one block [path:\ncontent] per fetched file with a blank line
    between consecutive blocks, and the user message is the change request. *)
Theorem messages_sent (env : Env) :
  exists before after,
    run env
    = before
      ++ GenerateText
           (instructions +:+ rendered_blocks (fetched (decodeBase64 env) (contents env)))
           (answer env)
      :: after /\
    Forall (fun ev => is_generate ev = false) (before ++ after).
Proof.
  destruct (generate_run env) as (evs & Hevs & Hrun).
  unfold run, createAutomatedPR.
  match goal with
  | |- context [try_catch (?m ≫= ?f) ?r] =>
      destruct (try_bind_emits (fun ev => is_generate ev = false) m f r [] _ _ (Hrun []))
        as (after & Hafter & Hquiet)
  end.
  { intros generated. repeat emits_step; reflexivity. }
  { apply report_no_generate. }
  cbn zeta in Hafter. rewrite Hafter, codebaseContext_blocks_system.
  eexists _, after. split.
  { rewrite <- app_assoc. reflexivity. }
  apply Forall_app. split; [|done].
  apply Forall_app. split; [constructor|].
  constructor; [done|]. apply Forall_app. split.
  - eapply Forall_impl; [exact Hevs|]. by intros [[]| []| | | | | | | | | |].
  - by repeat constructor.
Qed.

Lemma fetch_event_not_write evs :
  Forall (fun ev => is_fetch_event ev = true) evs -> List.filter is_write evs = [].
Proof.
  induction 1 as [|ev evs Hev _ IH]; [done|].
  simpl. rewrite IH. by destruct ev as [[]|[]| | | | | | | | | |].
Qed.

(** C5: when the text of the model holds no opening tag, the run ends in the
    [catch] block with the error of the extraction, and no request that
    changes the host was made. *)
Theorem no_tag_no_writes (env : Env) (text : string) (reasoning : option string) :
  (forall h system user, generateText env h system user = Return (text, reasoning)) ->
  indexOf text "<response>" = -1 ->
  List.filter is_write (run env) = [] /\
  exists before,
    run env
    = before ++ [ConsoleError (LogErrorCreatingPR
                                 (Error "Could not find valid XML in model response"));
                 ConsoleError (LogErrorDetails
                                 (Error "Could not find valid XML in model response"))].
Proof.
  intros Hmodel Hopen.
  destruct (generate_run env) as (evs & Hevs & Hrun).
  assert (extractXMLFromResponse text
          = Throw (Error "Could not find valid XML in model response")) as Hextract.
  { unfold extractXMLFromResponse. by rewrite Hopen. }
  unfold run, createAutomatedPR, try_catch.
  rewrite run_bind, (Hrun []). cbn zeta. rewrite Hmodel. cbn beta iota.
  rewrite run_bind. unfold lift. cbn [fst]. rewrite Hextract. cbn beta iota.
  unfold report, emit. rewrite run_bind. cbn [fst].
  split.
  - norm_app. cbn [List.filter is_write].
    rewrite List.filter_app, (fetch_event_not_write _ Hevs). reflexivity.
  - exists (ConsoleLog LogGettingRepoFiles
            :: evs ++ [ConsoleLog (LogRepoFiles (fetched (decodeBase64 env) (contents env)));
                       ConsoleLog (LogCodebaseContext
                                     (codebaseContext (fetched (decodeBase64 env) (contents env))));
                       Question;
                       ConsoleLog (LogUserRequirements (answer env));
                       GenerateText (systemMessage (fetched (decodeBase64 env) (contents env)))
                         (answer env)]).
    norm_app. reflexivity.
Qed.

Lemma no_tag_no_writes_witness :
  List.filter is_write (run env_no_tag) = [] /\
  exists before,
    run env_no_tag
    = before ++ [ConsoleError (LogErrorCreatingPR
                                 (Error "Could not find valid XML in model response"));
                 ConsoleError (LogErrorDetails
                                 (Error "Could not find valid XML in model response"))].
Proof.
  apply (no_tag_no_writes env_no_tag "I cannot help with that." None).
  - intros h system user. reflexivity.
  - reflexivity.
Defined.

(** ** The write loop *)

Lemma write_loop_run env branch edits h :
  (forall h p m c b, createOrUpdateFileContents env h p m c b = Return tt) ->
  for_of (map edit_of edits) (writeFile env branch) h
  = (h ++ map (write_of branch) edits, Return tt).
Proof.
  intros Hhost. revert h. induction edits as [|[p c] rest IH]; intros h.
  - simpl. unfold mret, M_ret. by rewrite app_nil_r.
  - simpl map. cbn [for_of]. rewrite run_bind.
    unfold writeFile at 1, lift, request. cbn [edit_of FileContent.path FileContent.content
                                                 template toBase64 fst snd].
    rewrite !run_bind. cbn beta iota. rewrite Hhost, IH.
    unfold write_of at 2. cbn [fst snd]. by norm_app.
Qed.

Lemma record_other_paths branch after store p :
  Forall (fun edit : string * string => edit.1 <> p) after ->
  fold_left record_write (map (write_of branch) after) store !! p = store !! p.
Proof.
  intros Hafter. revert store. induction Hafter as [|[q c] after Hq _ IH]; intros store; [done|].
  simpl. rewrite IH. by apply lookup_insert_ne.
Qed.

Lemma commentBody_strings env reasoning edits :
  commentBody env reasoning (map edit_of edits)
  = Return (comment_text reasoning (map fst edits)).
Proof.
  unfold commentBody, comment_text.
  assert (mapM (fun f => p ← template env (FileContent.path f); mret ("- " +:+ p))
            (map edit_of edits)
          = Return (map (fun p => "- " +:+ p) (map fst edits))) as ->; [|done].
  induction edits as [|[p c] rest IH]; [done|].
  simpl map.
  change (mapM ?f (?x :: ?l)) with (f x ≫= fun y => mapM f l ≫= fun k => mret (y :: k)).
  rewrite IH. reflexivity.
Qed.

(** With a host that accepts every request and a title that is a string, the
    publisher runs to its end: default branch, head commit, new branch, one
    write per edit in the order of the list, pull request, comment. *)
Lemma publish_run env edits title body reasoning defaultBranch sha number url h :
  host_accepts env defaultBranch sha number url ->
  publish env (map edit_of edits) (PRMetadata.mk (JString title) body) reasoning h
  = (h ++ [ReposGet;
           GetRef ("heads/" +:+ defaultBranch);
           CreateRef ("refs/heads/" +:+ newBranch title (now env)) sha]
       ++ map (write_of (newBranch title (now env))) edits
       ++ [PullsCreate (JString title) body (newBranch title (now env)) defaultBranch;
           CreateComment number (comment_text reasoning (map fst edits));
           ConsoleLog (LogPullRequestCreated url)],
     Return tt).
Proof.
  intros (Hrepo & Href & Hcreate & Hwrite & Hpull & Hcomment).
  unfold publish, request, lift. cbn [PRMetadata.title PRMetadata.body slug_of].
  rewrite run_bind, Hrepo. cbn beta iota.
  rewrite run_bind. cbn beta iota zeta.
  rewrite run_bind, Href. cbn beta iota.
  rewrite run_bind, Hcreate. cbn beta iota.
  rewrite run_bind, (write_loop_run env _ edits _ Hwrite). cbn beta iota.
  rewrite run_bind, Hpull. cbn beta iota.
  rewrite run_bind, commentBody_strings. cbn beta iota.
  rewrite run_bind, Hcomment. unfold emit. cbn beta iota. cbn [fst snd].
  unfold newBranch. f_equal. norm_app. reflexivity.
Qed.

(** C7: with a host that accepts the requests, the publisher issues one
    create-or-update request per edit on the new branch, in the order of the
    list; two edits with the same path give two requests to that path, the
    earlier first, each with its own content, and with no later edit to that
    path the branch ends with the content of the later one. *)
Theorem same_path_written_twice (env : Env) (title : string) (body : jsval)
    (reasoning : option string) (defaultBranch sha url : string) (number : Z)
    (p c1 c2 : string) (before between after : list (string * string))
    (h : list Event) :
  host_accepts env defaultBranch sha number url ->
  exists writes,
    publish env (map edit_of (before ++ (p, c1) :: between ++ (p, c2) :: after))
      (PRMetadata.mk (JString title) body) reasoning h
    = (h ++ [ReposGet;
             GetRef ("heads/" +:+ defaultBranch);
             CreateRef ("refs/heads/" +:+ newBranch title (now env)) sha]
         ++ writes
         ++ [PullsCreate (JString title) body (newBranch title (now env)) defaultBranch;
             CreateComment number
               (comment_text reasoning
                  (map fst (before ++ (p, c1) :: between ++ (p, c2) :: after)));
             ConsoleLog (LogPullRequestCreated url)],
       Return tt) /\
    writes = map (write_of (newBranch title (now env))) before
             ++ CreateOrUpdateFileContents (JString p) ("Update " +:+ p)
                  (base64 (utf8 c1)) (newBranch title (now env))
             :: map (write_of (newBranch title (now env))) between
             ++ CreateOrUpdateFileContents (JString p) ("Update " +:+ p)
                  (base64 (utf8 c2)) (newBranch title (now env))
             :: map (write_of (newBranch title (now env))) after /\
    length writes = length (before ++ (p, c1) :: between ++ (p, c2) :: after) /\
    (Forall (fun edit : string * string => edit.1 <> p) after ->
     branch_files writes !! p = Some (base64 (utf8 c2))).
Proof.
  intros Hhost. eexists. split; [by apply publish_run|].
  split; [rewrite map_app; cbn [map]; rewrite map_app; reflexivity|].
  split; [by rewrite length_map|].
  intros Hafter. unfold branch_files.
  rewrite map_app, fold_left_app. simpl map. cbn [fold_left].
  rewrite map_app, fold_left_app. simpl map. cbn [fold_left].
  rewrite record_other_paths by done.
  unfold write_of at 2. cbn [record_write fst snd]. apply lookup_insert_eq.
Qed.

Lemma same_path_written_twice_witness :
  exists writes,
    publish (env_accepting "" JNull)
      (map edit_of ([("a.ts", "1")] ++ ("b.ts", "old") :: [] ++ ("b.ts", "new") :: []))
      (PRMetadata.mk (JString "Fix B") (JString "Twice.")) None []
    = ([] ++ [ReposGet;
              GetRef ("heads/" +:+ "main");
              CreateRef ("refs/heads/" +:+ newBranch "Fix B" (now (env_accepting "" JNull)))
                "abc123"]
          ++ writes
          ++ [PullsCreate (JString "Fix B") (JString "Twice.")
                (newBranch "Fix B" (now (env_accepting "" JNull))) "main";
              CreateComment 7
                (comment_text None
                   (map fst ([("a.ts", "1")] ++ ("b.ts", "old") :: [] ++ ("b.ts", "new") :: [])));
              ConsoleLog (LogPullRequestCreated "https://host/pull/7")],
        Return tt) /\
    writes = map (write_of (newBranch "Fix B" (now (env_accepting "" JNull)))) [("a.ts", "1")]
             ++ CreateOrUpdateFileContents (JString "b.ts") ("Update " +:+ "b.ts")
                  (base64 (utf8 "old")) (newBranch "Fix B" (now (env_accepting "" JNull)))
             :: map (write_of (newBranch "Fix B" (now (env_accepting "" JNull)))) []
             ++ CreateOrUpdateFileContents (JString "b.ts") ("Update " +:+ "b.ts")
                  (base64 (utf8 "new")) (newBranch "Fix B" (now (env_accepting "" JNull)))
             :: map (write_of (newBranch "Fix B" (now (env_accepting "" JNull)))) [] /\
    length writes = length ([("a.ts", "1")] ++ ("b.ts", "old") :: [] ++ ("b.ts", "new") :: []) /\
    (Forall (fun edit : string * string => edit.1 <> "b.ts") [] ->
     branch_files writes !! "b.ts" = Some (base64 (utf8 "new"))).
Proof.
  apply (same_path_written_twice (env_accepting "" JNull) "Fix B" (JString "Twice.") None
           "main" "abc123" "https://host/pull/7" 7 "b.ts" "old" "new" [("a.ts", "1")] [] [] []).
  repeat split.
Defined.

(** ** The end-to-end scenario *)

Lemma scenario_extracts : extractXMLFromResponse scenario_response = Return scenario_response.
Proof. reflexivity. Qed.

Lemma scenario_parses parser :
  parser scenario_response = Return (xml2js_result scenario_document) ->
  parseModelResponse parser scenario_response
  = Return (GeneratedContent.mk
              [edit_of ("src/log.ts", "export const log = console.log;")]
              (PRMetadata.mk (JString "Add Logging") (JString "Adds a logger."))).
Proof. intros Hparser. unfold parseModelResponse. rewrite Hparser. reflexivity. Qed.

(** C8: on the response of the scenario, with a host that accepts every
    request, the run creates the branch [feature/add-logging-<digits>] at the
    head of the default branch, writes the one file [src/log.ts] to it, opens
    one pull request titled [Add Logging] into the default branch, and posts
    one comment; these are all its writes. *)
Theorem scenario_add_logging (env : Env) (reasoning : option string)
    (defaultBranch sha url : string) (number : Z) :
  (forall h system user,
      generateText env h system user = Return (scenario_response, reasoning)) ->
  parseStringPromise env scenario_response = Return (xml2js_result scenario_document) ->
  host_accepts env defaultBranch sha number url ->
  0 <= now env ->
  exists timestamp,
    timestamp <> "" /\
    string_forall is_digit timestamp = true /\
    List.filter is_write (run env)
    = [CreateRef ("refs/heads/feature/add-logging-" +:+ timestamp) sha;
       CreateOrUpdateFileContents (JString "src/log.ts") "Update src/log.ts"
         "ZXhwb3J0IGNvbnN0IGxvZyA9IGNvbnNvbGUubG9nOw=="
         ("feature/add-logging-" +:+ timestamp);
       PullsCreate (JString "Add Logging") (JString "Adds a logger.")
         ("feature/add-logging-" +:+ timestamp) defaultBranch;
       CreateComment number
         ("## AI Model's Reasoning Process" +:+ newline +:+ newline
          +:+ default "undefined" reasoning
          +:+ newline +:+ newline +:+ "## Modified Files" +:+ newline
          +:+ "- src/log.ts")].
Proof.
  intros Hmodel Hparser Hhost Hnow.
  destruct (pretty_timestamp (now env) Hnow) as [Hne Hdigits].
  destruct (generate_run env) as (evs & Hevs & Hrun).
  exists (pretty (now env)). split; [done|]. split; [done|].
  unfold run, createAutomatedPR, try_catch.
  rewrite run_bind, (Hrun []). cbn zeta. rewrite Hmodel. cbn beta iota.
  rewrite run_bind. unfold lift at 1. cbn [fst snd]. rewrite scenario_extracts. cbn beta iota.
  rewrite run_bind. unfold lift at 1. rewrite (scenario_parses _ Hparser). cbn beta iota.
  cbn [GeneratedContent.files GeneratedContent.pr].
  rewrite (publish_run env [("src/log.ts", "export const log = console.log;")]
             "Add Logging" _ reasoning defaultBranch sha number url _ Hhost).
  cbn beta iota. norm_app. cbn [List.filter is_write fst snd map].
  rewrite List.filter_app, (fetch_event_not_write _ Hevs).
  reflexivity.
Qed.

Lemma scenario_add_logging_witness :
  exists timestamp,
    timestamp <> "" /\
    string_forall is_digit timestamp = true /\
    List.filter is_write
      (run (env_accepting scenario_response (xml2js_result scenario_document)))
    = [CreateRef ("refs/heads/feature/add-logging-" +:+ timestamp) "abc123";
       CreateOrUpdateFileContents (JString "src/log.ts") "Update src/log.ts"
         "ZXhwb3J0IGNvbnN0IGxvZyA9IGNvbnNvbGUubG9nOw=="
         ("feature/add-logging-" +:+ timestamp);
       PullsCreate (JString "Add Logging") (JString "Adds a logger.")
         ("feature/add-logging-" +:+ timestamp) "main";
       CreateComment 7
         ("## AI Model's Reasoning Process" +:+ newline +:+ newline
          +:+ default "undefined" (Some "Thinking.")
          +:+ newline +:+ newline +:+ "## Modified Files" +:+ newline
          +:+ "- src/log.ts")].
Proof.
  apply (scenario_add_logging
           (env_accepting scenario_response (xml2js_result scenario_document))
           (Some "Thinking.") "main" "abc123" "https://host/pull/7" 7).
  - intros h system user. reflexivity.
  - reflexivity.
  - repeat split.
  - simpl. lia.
Defined.

(** * Further properties *)

(** ** The extraction *)

Lemma substring_zero_length n s : String.substring n 0 s = "".
Proof. revert n. induction s as [|c s IH]; intros [|n]; simpl; auto. Qed.

Lemma substring_length_bound m n s :
  (String.length (String.substring m n s) <= n)%nat /\
  (String.length (String.substring m n s) = n -> n = 0%nat \/ (m + n <= String.length s)%nat).
Proof.
  revert m n. induction s as [|c s IH]; intros m n.
  - destruct m, n; simpl; split; try lia.
  - destruct m as [|m].
    + destruct n as [|n]; simpl; [split; lia|].
      destruct (IH 0%nat n) as [Hle Heq]. split; [lia|].
      intros Hlen. right. assert (String.length (String.substring 0 n s) = n) as Hn by lia.
      destruct (Heq Hn) as [->|Hs]; simpl; lia.
    + simpl. destruct (IH m n) as [Hle Heq]. split; [done|].
      intros Hlen. destruct (Heq Hlen) as [->|Hs]; [by left|right; lia].
Qed.

Lemma substring_of_prefix a n m t :
  (a + n <= m)%nat ->
  String.substring a n (String.substring 0 m t) = String.substring a n t.
Proof.
  revert a n m. induction t as [|c t IH]; intros a n m Hle.
  - by destruct m, a, n.
  - destruct m as [|m].
    + assert (a = 0%nat /\ n = 0%nat) as [-> ->] by lia. done.
    + simpl String.substring at 2. destruct a as [|a].
      * destruct n as [|n]; [done|]. simpl. f_equal. apply (IH 0%nat). lia.
      * simpl. apply IH. lia.
Qed.

Lemma substring_of_substring s a n m t :
  (a + n <= m)%nat ->
  String.substring a n (String.substring s m t) = String.substring (s + a) n t.
Proof.
  revert s. induction t as [|c t IH]; intros s Hle.
  - destruct s, m, a, n; done.
  - destruct s as [|s]; [by apply substring_of_prefix|].
    simpl. by apply IH.
Qed.

Lemma index_found n needle text m :
  String.index n needle text = Some m ->
  String.substring m (String.length needle) text = needle /\
  (needle = "" \/ (m + String.length needle <= String.length text)%nat).
Proof.
  intros Hindex. pose proof (String.index_correct1 _ _ _ _ Hindex) as Hsub.
  split; [done|].
  destruct (substring_length_bound m (String.length needle) text) as [_ Hbound].
  rewrite Hsub in Hbound. destruct (Hbound eq_refl) as [Hlen|Hle]; [|by right].
  left. by destruct needle.
Qed.

Lemma substring_length_exact m n s :
  (m + n <= String.length s)%nat -> String.length (String.substring m n s) = n.
Proof.
  revert m n. induction s as [|c s IH]; intros m n Hle; simpl in Hle.
  - assert (m = 0%nat /\ n = 0%nat) as [-> ->] by lia. done.
  - destruct m as [|m]; simpl.
    + destruct n as [|n]; [done|]. simpl. f_equal. apply IH. lia.
    + apply IH. lia.
Qed.

Lemma indexOf_found text needle (m : nat) :
  indexOf text needle = Z.of_nat m -> String.index 0 needle text = Some m.
Proof.
  unfold indexOf. destruct (String.index 0 needle text) as [k|]; [|lia].
  intros Heq. f_equal. lia.
Qed.

(** The guard on the end index never fires. *)
Lemma extract_result (text : string) :
  extractXMLFromResponse text
  = if indexOf text "<response>" =? -1
    then Throw (Error "Could not find valid XML in model response")
    else Return (slice text (indexOf text "<response>") (indexOf text "</response>" + 11)).
Proof.
  unfold extractXMLFromResponse.
  pose proof (indexOf_lower text "</response>") as Hlo.
  change (Z.of_nat (String.length "</response>")) with 11.
  destruct (indexOf text "<response>" =? -1); [done|].
  by destruct (Z.eqb_spec (indexOf text "</response>" + 11) (-1)); [lia|].
Qed.

(** X1: the extraction throws exactly when the opening tag is absent, and
    then with the fixed message; in every other case it returns the slice
    from the first opening tag to index 11 behind the first closing tag (to
    index 10 when there is none). *)
Theorem extract_throws_exactly (text : string) :
  extractXMLFromResponse text
  = if indexOf text "<response>" =? -1
    then Throw (Error "Could not find valid XML in model response")
    else Return (slice text (indexOf text "<response>") (indexOf text "</response>" + 11)).
Proof. apply extract_result. Qed.

(** X2: when the first opening tag stands at [s] and the first closing tag
    at [e] behind it, the extraction returns the text from [s] to the end of
    that closing tag: a block that begins with the opening tag and ends with
    the closing tag. *)
Theorem extract_block (text : string) (s e : nat) :
  indexOf text "<response>" = Z.of_nat s ->
  indexOf text "</response>" = Z.of_nat e ->
  (s <= e)%nat ->
  extractXMLFromResponse text = Return (String.substring s (e + 11 - s) text) /\
  String.length (String.substring s (e + 11 - s) text) = (e + 11 - s)%nat /\
  String.prefix "<response>" (String.substring s (e + 11 - s) text) = true /\
  String.substring (e - s) 11 (String.substring s (e + 11 - s) text) = "</response>".
Proof.
  intros Hs He Hle.
  destruct (index_found _ _ _ _ (indexOf_found _ _ _ Hs)) as [Hopen [?|Hopen_in]]; [done|].
  destruct (index_found _ _ _ _ (indexOf_found _ _ _ He)) as [Hclose [?|Hclose_in]]; [done|].
  simpl String.length in *.
  split; [|split; [|split]].
  - rewrite extract_result, Hs, He.
    destruct (Z.eqb_spec (Z.of_nat s) (-1)); [lia|]. f_equal. unfold slice.
    destruct (Z.ltb_spec (Z.of_nat s) 0); [lia|].
    destruct (Z.ltb_spec (Z.of_nat e + 11) 0); [lia|].
    f_equal; lia.
  - apply substring_length_exact. lia.
  - apply String.prefix_correct. simpl String.length.
    rewrite substring_of_substring by lia. by rewrite Nat.add_0_r.
  - rewrite substring_of_substring by lia.
    by replace (s + (e - s))%nat with e by lia.
Qed.

Lemma extract_block_witness :
  extractXMLFromResponse "ok <response>x</response> bye"
  = Return (String.substring 3 (14 + 11 - 3) "ok <response>x</response> bye") /\
  String.length (String.substring 3 (14 + 11 - 3) "ok <response>x</response> bye")
  = (14 + 11 - 3)%nat /\
  String.prefix "<response>" (String.substring 3 (14 + 11 - 3) "ok <response>x</response> bye")
  = true /\
  String.substring (14 - 3) 11 (String.substring 3 (14 + 11 - 3) "ok <response>x</response> bye")
  = "</response>".
Proof.
  apply (extract_block "ok <response>x</response> bye" 3 14); [reflexivity|reflexivity|lia].
Defined.

(** The two tags do not overlap: a closing tag that starts before the opening
    tag ends before it. *)
Lemma close_ends_before_open text (s e : nat) :
  String.substring s 10 text = "<response>" ->
  String.substring e 11 text = "</response>" ->
  (e < s)%nat -> (e + 11 <= s)%nat.
Proof.
  intros Hopen Hclose Hlt.
  destruct (Nat.le_gt_cases (e + 11) s) as [|Hin]; [done|exfalso].
  pose proof (String.substring_correct1 text s 10 0 ltac:(lia)) as Hfirst.
  pose proof (String.substring_correct1 text e 11 (s - e) ltac:(lia)) as Hinner.
  rewrite Hopen in Hfirst. rewrite Hclose in Hinner.
  replace (s - e + e)%nat with s in Hinner by lia. simpl plus in Hfirst.
  rewrite <- Hfirst in Hinner.
  assert (s - e = 1 \/ s - e = 2 \/ s - e = 3 \/ s - e = 4 \/ s - e = 5 \/ s - e = 6
          \/ s - e = 7 \/ s - e = 8 \/ s - e = 9 \/ s - e = 10)%nat as Hcases by lia.
  repeat (destruct Hcases as [Hc|Hcases]; [rewrite Hc in Hinner; discriminate|]).
  rewrite Hcases in Hinner. discriminate.
Qed.

(** X3: when the first closing tag of the text stands before the first
    opening tag, the extraction does not throw and does not look for a later
    closing tag: it returns the empty string. *)
Theorem extract_close_first (text : string) (s e : nat) :
  indexOf text "<response>" = Z.of_nat s ->
  indexOf text "</response>" = Z.of_nat e ->
  (e < s)%nat ->
  extractXMLFromResponse text = Return "".
Proof.
  intros Hs He Hlt.
  destruct (index_found _ _ _ _ (indexOf_found _ _ _ Hs)) as [Hopen [?|Hopen_in]]; [done|].
  destruct (index_found _ _ _ _ (indexOf_found _ _ _ He)) as [Hclose [?|Hclose_in]]; [done|].
  simpl String.length in *.
  pose proof (close_ends_before_open _ _ _ Hopen Hclose Hlt) as Hend.
  rewrite extract_result, Hs, He.
  destruct (Z.eqb_spec (Z.of_nat s) (-1)); [lia|]. f_equal. unfold slice.
  destruct (Z.ltb_spec (Z.of_nat s) 0); [lia|].
  destruct (Z.ltb_spec (Z.of_nat e + 11) 0); [lia|].
  replace (Z.to_nat (Z.max _ 0)) with 0%nat by lia.
  apply substring_zero_length.
Qed.

Lemma extract_close_first_witness :
  extractXMLFromResponse "</response> <response>x</response>" = Return "".
Proof.
  apply (extract_close_first "</response> <response>x</response>" 12 0);
    [reflexivity|reflexivity|lia].
Defined.

(** ** The slug *)


Lemma lower_unit_idempotent c : lower_unit (lower_unit c) = lower_unit c.
Proof. destruct c as [[] [] [] [] [] [] [] []]; reflexivity. Qed.

Lemma toLowerCase_idempotent s : toLowerCase (toLowerCase s) = toLowerCase s.
Proof. induction s as [|c s IH]; simpl; [done|]. by rewrite lower_unit_idempotent, IH. Qed.





(** X5: the slug does not depend on the case of the title. *)
Theorem slug_ignores_case (title : string) :
  slugify (toLowerCase title) = slugify title.
Proof. unfold slugify. by rewrite toLowerCase_idempotent. Qed.

Lemma replace_runs_keeps_alnum b s :
  string_filter alnum (replace_runs b s) = string_filter alnum s.
Proof.
  revert b. induction s as [|c s IH]; intros b; simpl; [done|].
  destruct (alnum c) eqn:Hc; simpl.
  - by rewrite Hc, IH.
  - destruct b; simpl; by rewrite IH.
Qed.

(** X6: the slug keeps the lower-case letters and the digits of the
    lower-cased title, all of them and in their order; everything it drops or
    replaces lies outside [[a-z0-9]]. *)
Theorem slug_keeps_alnum (title : string) :
  string_filter alnum (slugify title) = string_filter alnum (toLowerCase title).
Proof. apply replace_runs_keeps_alnum. Qed.

(** ** The fetcher without errors *)

Section Clean_walk.
Variable decode : string -> string.

Lemma clean_each items :
  Forall (fun item => item_has_error item = false -> clean_visit decode item) items ->
  existsb item_has_error items = false ->
  exists evs,
    Forall (fun ev => is_fetch_event ev = true /\ is_console_error ev = false) evs /\
    forall files h,
      visit_each decode items files h
      = (h ++ evs, files ++ flat_map (item_files decode) items, Return tt).
Proof.
  induction 1 as [|item rest Hitem _ IH]; intros Hok.
  - exists []. split; [constructor|]. intros files h. simpl. by rewrite !app_nil_r.
  - simpl in Hok. apply orb_false_elim in Hok as [Hi Hrest].
    destruct (Hitem Hi) as (evs & Hevs & Hv). destruct (IH Hrest) as (evs' & Hevs' & Hrun).
    exists (evs ++ evs'). split; [by apply Forall_app|].
    intros files h. simpl. rewrite Hv, Hrun. by rewrite !app_assoc.
Qed.

Lemma clean_tree c : has_error c = false -> clean_walk decode c.
Proof.
  apply (Contents_tree_ind
           (fun c => has_error c = false -> clean_walk decode c)
           (fun item => item_has_error item = false -> clean_visit decode item)).
  - intros e Hok. discriminate.
  - intros items Hall Hok.
    destruct (clean_each items Hall Hok) as (evs & Hevs & Hrun).
    intros path. exists (GetContent path :: evs). split; [by constructor|].
    intros h. rewrite getRepoFiles_unfold. simpl. rewrite Hrun. simpl.
    by rewrite <- app_assoc.
  - intros item Hitem Hok.
    assert (item_has_error item = false) as Hi by (by destruct item as [? ? []| |]).
    destruct (Hitem Hi) as (evs & Hevs & Hv).
    intros path. exists (GetContent path :: evs). split; [by constructor|].
    intros h. rewrite getRepoFiles_unfold. simpl. rewrite Hv. simpl.
    by rewrite <- app_assoc.
  - intros p sha [b|e] Hok; [|discriminate].
    exists [ConsoleLog (LogItem p sha); GetBlob sha]. split; [by repeat constructor|].
    intros files h. simpl. by rewrite <- app_assoc.
  - intros p sha listing IH Hok. destruct (IH Hok p) as (evs & Hevs & Hrun).
    exists (ConsoleLog (LogItem p sha) :: evs). split; [by constructor|].
    intros files h. simpl. rewrite Hrun. by rewrite <- app_assoc.
  - intros p sha _. exists [ConsoleLog (LogItem p sha)]. split; [by repeat constructor|].
    intros files h. simpl. by rewrite app_nil_r.
Qed.

(** X7: when no request of the walk fails, [getRepoFiles] returns every file
    of the tree, whatever the depth, in the order of the listings, and prints
    no error line. *)
Theorem getRepoFiles_complete (path : string) (c : Contents) (h : list Event) :
  has_error c = false ->
  exists evs,
    getRepoFiles decode path c h = (h ++ evs, Return (all_files decode c)) /\
    Forall (fun ev => is_console_error ev = false) evs.
Proof.
  intros Hok. destruct (clean_tree c Hok path) as (evs & Hevs & Hrun).
  exists evs. split; [apply Hrun|].
  eapply Forall_impl; [exact Hevs|]. by intros ev [_ ?].
Qed.

(** X8: a walk only reads: whatever the host answers, it returns normally,
    leaves the earlier history in place, starts with the listing request for
    its path, and issues nothing but listing requests, blob requests and
    console lines. *)
Theorem getRepoFiles_reads_only (path : string) (c : Contents) (h : list Event) :
  exists evs files,
    getRepoFiles decode path c h = (h ++ GetContent path :: evs, Return files) /\
    Forall (fun ev => is_fetch_event ev = true) evs /\
    List.filter is_write (GetContent path :: evs) = [].
Proof.
  destruct (getRepoFiles_run decode path c) as (evs & Hevs & Hrun).
  assert (exists rest, evs = GetContent path :: rest) as (rest & ->).
  { specialize (Hrun []). rewrite getRepoFiles_unfold in Hrun. simpl in Hrun.
    destruct c as [e|items|item].
    - inversion Hrun. eauto.
    - destruct (visit_each_frame decode items) as (evs' & more & outcome & _ & Hv).
      rewrite Hv in Hrun. destruct outcome; inversion Hrun; eauto.
    - destruct (visit_frame decode item) as (evs' & more & outcome & _ & Hv).
      rewrite Hv in Hrun. destruct outcome; inversion Hrun; eauto. }
  exists rest, (fetched decode c). split; [apply Hrun|].
  split; [by inversion Hevs|]. by apply fetch_event_not_write.
Qed.
End Clean_walk.

Lemma getRepoFiles_complete_witness :
  exists evs,
    getRepoFiles (fun s => s) ""
      (ContentsArray [File "a.ts" "sha-a" (Return "YQ==");
                      Dir "lib" "sha-lib"
                        (ContentsArray [File "lib/b.ts" "sha-b" (Return "Yg==")])]) []
    = ([] ++ evs,
       Return (all_files (fun s => s)
                 (ContentsArray [File "a.ts" "sha-a" (Return "YQ==");
                                 Dir "lib" "sha-lib"
                                   (ContentsArray [File "lib/b.ts" "sha-b" (Return "Yg==")])]))) /\
    Forall (fun ev => is_console_error ev = false) evs.
Proof.
  apply (getRepoFiles_complete (fun s => s) ""
           (ContentsArray [File "a.ts" "sha-a" (Return "YQ==");
                           Dir "lib" "sha-lib"
                             (ContentsArray [File "lib/b.ts" "sha-b" (Return "Yg==")])]) []).
  reflexivity.
Defined.

(** ** The parser on any document *)

(** X9: when [parseModelResponse] returns, the root is [response], the edits
    are the [file] children of the first [files] element, one edit per child
    and in document order, each with the values of its first [path] and first
    [content]; title and body are those of the first [pullRequest].  Later
    [files] and [pullRequest] elements are never read. *)
Theorem parse_reads_first (parser : string -> Result jsval) (xmlResponse : string)
    (root : xml) (g : GeneratedContent.t) :
  parser xmlResponse = Return (xml2js_result root) ->
  parseModelResponse parser xmlResponse = Return g ->
  exists files pullRequest title body,
    xml_name root = "response" /\
    first_child "files" root = Some files /\
    children_named "file" files <> [] /\
    Forall2 (fun file edit => decode_file file = Some edit)
      (children_named "file" files) (GeneratedContent.files g) /\
    first_child "pullRequest" root = Some pullRequest /\
    first_child "title" pullRequest = Some title /\
    first_child "body" pullRequest = Some body /\
    GeneratedContent.pr g = PRMetadata.mk (xml2js_value title) (xml2js_value body).
Proof.
  intros Hparser Hparse. rewrite (parse_document _ _ _ Hparser) in Hparse.
  unfold decode_document in Hparse.
  destruct (String.eqb_spec (xml_name root) "response") as [Hname|]; [|discriminate].
  unfold mbind, option_bind in Hparse.
  destruct (first_child "files" root) as [files|] eqn:Hfiles; [|discriminate].
  destruct (children_named "file" files) as [|file named] eqn:Hnamed; [discriminate|].
  destruct (mapM decode_file (file :: named)) as [edits|] eqn:Hedits; [|discriminate].
  destruct (first_child "pullRequest" root) as [pullRequest|] eqn:Hpr; [|discriminate].
  destruct (first_child "title" pullRequest) as [title|] eqn:Htitle; [|discriminate].
  destruct (first_child "body" pullRequest) as [body|] eqn:Hbody; [|discriminate].
  injection Hparse as <-. exists files, pullRequest, title, body.
  rewrite Hnamed. repeat split; try done; by apply mapM_Some.
Qed.

Lemma parse_reads_first_witness :
  exists files pullRequest title body,
    xml_name document_with_extras = "response" /\
    first_child "files" document_with_extras = Some files /\
    children_named "file" files <> [] /\
    Forall2 (fun file edit => decode_file file = Some edit)
      (children_named "file" files)
      (GeneratedContent.files
         (GeneratedContent.mk [FileContent.mk (JString "a.ts") (JString "1")]
            (PRMetadata.mk (JString "T") (JString "B")))) /\
    first_child "pullRequest" document_with_extras = Some pullRequest /\
    first_child "title" pullRequest = Some title /\
    first_child "body" pullRequest = Some body /\
    GeneratedContent.pr
      (GeneratedContent.mk [FileContent.mk (JString "a.ts") (JString "1")]
         (PRMetadata.mk (JString "T") (JString "B")))
    = PRMetadata.mk (xml2js_value title) (xml2js_value body).
Proof.
  apply (parse_reads_first (fun _ => Return (xml2js_result document_with_extras))
           response_with_extras document_with_extras); reflexivity.
Defined.

(** ** The publisher and the pipeline under any host *)

Lemma writeFile_run env branch file h :
  writeFile env branch file h =
  match template env (FileContent.path file) with
  | Return message =>
      match toBase64 env (FileContent.content file) with
      | Return content =>
          (h ++ [CreateOrUpdateFileContents (FileContent.path file)
                   ("Update " +:+ message) content branch],
           createOrUpdateFileContents env h (FileContent.path file)
             ("Update " +:+ message) content branch)
      | Throw e => (h, Throw e)
      end
  | Throw e => (h, Throw e)
  end.
Proof.
  unfold writeFile, lift, request. rewrite run_bind.
  destruct (template env (FileContent.path file)); [|done]. cbn beta iota.
  rewrite run_bind. by destruct (toBase64 env (FileContent.content file)).
Qed.

Lemma filter_file_writes branch evs :
  Forall (file_write_on branch) evs -> List.filter is_write evs = evs.
Proof.
  induction 1 as [|ev evs (p & m & c & ->) _ IH]; [done|]. simpl. by rewrite IH.
Qed.

Lemma write_loop_outcome env branch files h :
  exists evs r,
    for_of files (writeFile env branch) h = (h ++ evs, r) /\
    Forall (file_write_on branch) evs.
Proof.
  revert h. induction files as [|file rest IH]; intros h.
  - exists [], (Return tt). split; [|constructor]. simpl. unfold mret, M_ret. by rewrite app_nil_r.
  - cbn [for_of]. rewrite run_bind, writeFile_run.
    destruct (template env (FileContent.path file)) as [message|e].
    2:{ exists [], (Throw e). split; [by rewrite app_nil_r|constructor]. }
    destruct (toBase64 env (FileContent.content file)) as [content|e].
    2:{ exists [], (Throw e). split; [by rewrite app_nil_r|constructor]. }
    destruct (createOrUpdateFileContents env h _ _ _ _) as [[]|e].
    + destruct (IH (h ++ [CreateOrUpdateFileContents (FileContent.path file)
                            ("Update " +:+ message) content branch]))
        as (evs & r & -> & Hevs).
      eexists (_ :: evs), r. split; [by rewrite <- app_assoc|].
      constructor; [|done]. by eexists _, _, _.
    + eexists [_], (Throw e). split; [done|]. constructor; [|constructor]. by eexists _, _, _.
Qed.

(** Whatever the host answers, the publisher only appends to the history,
    its writes keep the order branch, files, pull request, comment, and it
    returns only behind the line of the created pull request. *)
Lemma publish_outcome env files pr reasoning h :
  exists evs r,
    publish env files pr reasoning h = (h ++ evs, r) /\
    write_shape (List.filter is_write evs) /\
    (r = Return tt ->
     exists before url, evs = before ++ [ConsoleLog (LogPullRequestCreated url)]).
Proof.
  unfold publish, request, lift.
  rewrite run_bind. destruct (reposGet env h) as [defaultBranch|e]; cbn beta iota.
  2:{ exists [ReposGet], (Throw e). split; [done|]. split; [by left|discriminate]. }
  rewrite run_bind. destruct (slug_of (PRMetadata.title pr)) as [slug|e]; cbn beta iota zeta.
  2:{ exists [ReposGet], (Throw e). split; [done|]. split; [by left|discriminate]. }
  rewrite run_bind. destruct (getRef env _ _) as [sha|e]; cbn beta iota.
  2:{ exists [ReposGet; GetRef ("heads/" +:+ defaultBranch)], (Throw e).
      split; [by norm_app|]. split; [by left|discriminate]. }
  rewrite run_bind. destruct (createRef env _ _ _) as [[]|e]; cbn beta iota.
  2:{ exists [ReposGet; GetRef ("heads/" +:+ defaultBranch);
              CreateRef ("refs/heads/" +:+ branchName slug (now env)) sha], (Throw e).
      split; [by norm_app|]. split; [|discriminate].
      right. exists (branchName slug (now env)), sha, [], []. repeat split; auto. }
  rewrite run_bind.
  match goal with
  | |- context [for_of files ?body ?h0] =>
      destruct (write_loop_outcome env (branchName slug (now env)) files h0)
        as (writes & r & -> & Hwrites)
  end.
  pose proof (filter_file_writes _ _ Hwrites) as Hfilter.
  destruct r as [[]|e]; cbn beta iota.
  2:{ exists ([ReposGet; GetRef ("heads/" +:+ defaultBranch);
               CreateRef ("refs/heads/" +:+ branchName slug (now env)) sha] ++ writes),
        (Throw e).
      split; [by norm_app|]. split; [|discriminate].
      right. exists (branchName slug (now env)), sha, writes, [].
      cbn [app List.filter is_write]. rewrite Hfilter, app_nil_r. auto. }
  rewrite run_bind. destruct (pullsCreate env _ _ _ _ _) as [[number url]|e]; cbn beta iota.
  2:{ exists ([ReposGet; GetRef ("heads/" +:+ defaultBranch);
               CreateRef ("refs/heads/" +:+ branchName slug (now env)) sha] ++ writes
              ++ [PullsCreate (PRMetadata.title pr) (PRMetadata.body pr)
                    (branchName slug (now env)) defaultBranch]),
        (Throw e).
      split; [by norm_app|]. split; [|discriminate].
      right. exists (branchName slug (now env)), sha, writes,
        [PullsCreate (PRMetadata.title pr) (PRMetadata.body pr)
           (branchName slug (now env)) defaultBranch].
      cbn [app List.filter is_write]. rewrite List.filter_app, Hfilter.
      repeat split; eauto 10. }
  rewrite run_bind. destruct (commentBody env reasoning files) as [body|e]; cbn beta iota.
  2:{ exists ([ReposGet; GetRef ("heads/" +:+ defaultBranch);
               CreateRef ("refs/heads/" +:+ branchName slug (now env)) sha] ++ writes
              ++ [PullsCreate (PRMetadata.title pr) (PRMetadata.body pr)
                    (branchName slug (now env)) defaultBranch]),
        (Throw e).
      split; [by norm_app|]. split; [|discriminate].
      right. exists (branchName slug (now env)), sha, writes,
        [PullsCreate (PRMetadata.title pr) (PRMetadata.body pr)
           (branchName slug (now env)) defaultBranch].
      cbn [app List.filter is_write]. rewrite List.filter_app, Hfilter.
      repeat split; eauto 10. }
  rewrite run_bind. cbn [fst snd]. destruct (createComment env _ _ _) as [[]|e]; cbn beta iota.
  - exists ([ReposGet; GetRef ("heads/" +:+ defaultBranch);
             CreateRef ("refs/heads/" +:+ branchName slug (now env)) sha] ++ writes
            ++ [PullsCreate (PRMetadata.title pr) (PRMetadata.body pr)
                  (branchName slug (now env)) defaultBranch;
                CreateComment number body;
                ConsoleLog (LogPullRequestCreated url)]),
      (Return tt).
    split; [unfold emit; by norm_app|]. split.
    + right. exists (branchName slug (now env)), sha, writes,
        [PullsCreate (PRMetadata.title pr) (PRMetadata.body pr)
           (branchName slug (now env)) defaultBranch;
         CreateComment number body].
      cbn [app List.filter is_write]. rewrite List.filter_app, Hfilter.
      repeat split; eauto 10.
    + intros _. eexists _, url. rewrite app_assoc.
      change [?a; ?b; ?c] with ([a; b] ++ [c]). rewrite app_assoc. reflexivity.
  - exists ([ReposGet; GetRef ("heads/" +:+ defaultBranch);
             CreateRef ("refs/heads/" +:+ branchName slug (now env)) sha] ++ writes
            ++ [PullsCreate (PRMetadata.title pr) (PRMetadata.body pr)
                  (branchName slug (now env)) defaultBranch;
                CreateComment number body]),
      (Throw e).
    split; [by norm_app|]. split; [|discriminate].
    right. exists (branchName slug (now env)), sha, writes,
      [PullsCreate (PRMetadata.title pr) (PRMetadata.body pr)
         (branchName slug (now env)) defaultBranch;
       CreateComment number body].
    cbn [app List.filter is_write]. rewrite List.filter_app, Hfilter.
    repeat split; eauto 10.
Qed.

Lemma report_run e h :
  report e h = (h ++ [ConsoleError (LogErrorCreatingPR e); ConsoleError (LogErrorDetails e)],
                Return tt).
Proof. unfold report, emit. rewrite run_bind. cbn beta iota. by norm_app. Qed.

Lemma filter_write_app_quiet before evs :
  List.filter is_write before = [] ->
  List.filter is_write (before ++ evs) = List.filter is_write evs.
Proof. intros Hq. by rewrite List.filter_app, Hq. Qed.

(** The events of [generate]: console lines, the walk, the prompt, the call
    of the model; none of them a write. *)
Lemma generate_quiet env :
  exists evs,
    List.filter is_write evs = [] /\
    (exists before,
        evs = before ++ [GenerateText
                           (systemMessage (fetched (decodeBase64 env) (contents env)))
                           (answer env)]) /\
    forall h, exists reply, generate env h = (h ++ evs, reply).
Proof.
  destruct (generate_run env) as (evs & Hevs & Hrun).
  eexists. split; [|split; [eexists; reflexivity|]].
  2:{ intros h. eexists. rewrite Hrun. cbn zeta. rewrite <- app_assoc. reflexivity. }
  cbn [app List.filter is_write]. rewrite !List.filter_app, (fetch_event_not_write _ Hevs).
  reflexivity.
Qed.

(** Every run returns normally; its writes keep the order of the publisher;
    it ends with the line of the created pull request or in the [catch]
    block. *)
Lemma pipeline_outcome env h :
  exists evs,
    createAutomatedPR env h = (h ++ evs, Return tt) /\
    write_shape (List.filter is_write evs) /\
    run_ending evs.
Proof.
  destruct (generate_quiet env) as (prefix & Hquiet & _ & Hgen).
  destruct (Hgen h) as (reply & Hrun).
  assert (forall e, exists evs,
             (h ++ prefix ++ [ConsoleError (LogErrorCreatingPR e);
                              ConsoleError (LogErrorDetails e)]
              = h ++ evs) /\
             write_shape (List.filter is_write evs) /\ run_ending evs) as Hfail.
  { intros e. eexists. split; [reflexivity|]. split.
    - rewrite filter_write_app_quiet by done. by left.
    - right. by exists prefix, e. }
  unfold createAutomatedPR, try_catch. rewrite run_bind, Hrun.
  destruct reply as [[text reasoning]|e]; cbn beta iota.
  2:{ rewrite report_run, <- app_assoc. destruct (Hfail e) as (evs & -> & ?). eauto. }
  rewrite run_bind. unfold lift at 1. cbn [fst snd].
  destruct (extractXMLFromResponse text) as [xmlResponse|e]; cbn beta iota.
  2:{ rewrite report_run, <- app_assoc. destruct (Hfail e) as (evs & -> & ?). eauto. }
  rewrite run_bind. unfold lift at 1.
  destruct (parseModelResponse (parseStringPromise env) xmlResponse) as [parsed|e];
    cbn beta iota.
  2:{ rewrite report_run, <- app_assoc. destruct (Hfail e) as (evs & -> & ?). eauto. }
  destruct (publish_outcome env (GeneratedContent.files parsed) (GeneratedContent.pr parsed)
              reasoning (h ++ prefix)) as (evs & r & -> & Hshape & Hend).
  destruct r as [[]|e].
  - exists (prefix ++ evs). split; [by rewrite app_assoc|]. split.
    + by rewrite filter_write_app_quiet.
    + left. destruct (Hend eq_refl) as (before & url & ->).
      exists (prefix ++ before), url. by rewrite app_assoc.
  - rewrite report_run.
    exists (prefix ++ evs ++ [ConsoleError (LogErrorCreatingPR e);
                              ConsoleError (LogErrorDetails e)]).
    split; [by rewrite <- !app_assoc|]. split.
    + rewrite filter_write_app_quiet by done.
      rewrite List.filter_app. cbn [List.filter is_write]. by rewrite app_nil_r.
    + right. exists (prefix ++ evs), e. by rewrite <- app_assoc.
Qed.

(** X10: [createAutomatedPR] never rejects: whatever the host, the model and
    the parser answer, the run returns normally, and it ends either with the
    line of the created pull request or with the two lines of the [catch]
    block for the error that stopped it. *)
Theorem createAutomatedPR_never_throws (env : Env) (h : list Event) :
  exists evs,
    createAutomatedPR env h = (h ++ evs, Return tt) /\
    ((exists before url, evs = before ++ [ConsoleLog (LogPullRequestCreated url)]) \/
     (exists before e, evs = before ++ [ConsoleError (LogErrorCreatingPR e);
                                        ConsoleError (LogErrorDetails e)])).
Proof. destruct (pipeline_outcome env h) as (evs & Hrun & _ & Hend). by exists evs. Qed.

(** X11: in every run the requests that change the host come in one order:
    none at all; or one branch creation, then file writes that all name that
    branch, then at most one pull request whose head is that branch, then at
    most one comment.  No file is written before the branch exists, no pull
    request is opened before the writes, and nothing is written after it. *)
Theorem writes_in_order (env : Env) :
  List.filter is_write (run env) = [] \/
  exists branch sha files tail,
    List.filter is_write (run env)
    = CreateRef ("refs/heads/" +:+ branch) sha :: files ++ tail /\
    Forall (fun ev => exists p m c, ev = CreateOrUpdateFileContents p m c branch) files /\
    (tail = [] \/
     (exists t b base, tail = [PullsCreate t b branch base]) \/
     (exists t b base n body, tail = [PullsCreate t b branch base; CreateComment n body])).
Proof.
  destruct (pipeline_outcome env []) as (evs & Hrun & Hshape & _).
  unfold run. rewrite Hrun. exact Hshape.
Qed.

Lemma generate_trace env :
  exists walk,
    Forall (fun ev => is_fetch_event ev = true) walk /\
    forall h, generate env h
              = (h ++ generate_events env walk,
                 generateText env
                   (h ++ removelast (generate_events env walk))
                   (systemMessage (fetched (decodeBase64 env) (contents env)))
                   (answer env)).
Proof.
  destruct (generate_run env) as (walk & Hwalk & Hrun).
  exists walk. split; [done|]. intros h. rewrite Hrun. cbn zeta.
  unfold generate_events.
  assert (forall (a : Event) l1 x1 x2 x3 x4 x5,
             removelast (a :: l1 ++ [x1; x2; x3; x4; x5]) = a :: l1 ++ [x1; x2; x3; x4])
    as Hlast.
  { intros a l1 x1 x2 x3 x4 x5.
    change (a :: l1 ++ [x1; x2; x3; x4; x5]) with ((a :: l1) ++ [x1; x2; x3; x4; x5]).
    change [x1; x2; x3; x4; x5] with ([x1; x2; x3; x4] ++ [x5]).
    rewrite app_assoc, removelast_last. by rewrite <- app_comm_cons. }
  rewrite Hlast. f_equal. by norm_app.
Qed.

Lemma generate_events_quiet env walk :
  Forall (fun ev => is_fetch_event ev = true) walk ->
  List.filter is_write (generate_events env walk) = [].
Proof.
  intros Hwalk. unfold generate_events. cbn [List.filter is_write].
  by rewrite List.filter_app, (fetch_event_not_write _ Hwalk).
Qed.

(** X12: when the call of the model fails, the run stops there: after the
    fetch, the prompt and the call come the two lines of the [catch] block
    for that error and nothing else; the host is asked for nothing more and
    nothing is written. *)
Theorem model_failure_stops (env : Env) (e : exn) :
  (forall h system user, generateText env h system user = Throw e) ->
  exists walk,
    Forall (fun ev => is_fetch_event ev = true) walk /\
    run env = generate_events env walk ++ catch_lines e /\
    List.filter is_write (run env) = [].
Proof.
  intros Hmodel. destruct (generate_trace env) as (walk & Hwalk & Hrun).
  exists walk. split; [done|].
  assert (run env = generate_events env walk ++ catch_lines e) as ->.
  { unfold run, createAutomatedPR, try_catch. rewrite run_bind, Hrun, Hmodel.
    by rewrite report_run. }
  split; [done|]. by rewrite filter_write_app_quiet by by apply generate_events_quiet.
Qed.

Lemma model_failure_stops_witness :
  exists walk,
    Forall (fun ev => is_fetch_event ev = true) walk /\
    run (env_model_down (RequestError "rate limit"))
    = generate_events (env_model_down (RequestError "rate limit")) walk
      ++ catch_lines (RequestError "rate limit") /\
    List.filter is_write (run (env_model_down (RequestError "rate limit"))) = [].
Proof.
  apply (model_failure_stops (env_model_down (RequestError "rate limit"))
           (RequestError "rate limit")).
  intros h system user. reflexivity.
Defined.

(** X13: when the extraction or the parse of the model's text fails, for
    whatever reason, the run stops right behind the call of the model with
    the two lines of the [catch] block for that error: no request reaches the
    host after the fetch, and nothing is written. *)
Theorem parse_failure_stops (env : Env) (text : string) (reasoning : option string)
    (e : exn) :
  (forall h system user, generateText env h system user = Return (text, reasoning)) ->
  (extractXMLFromResponse text ≫= parseModelResponse (parseStringPromise env)) = Throw e ->
  exists walk,
    Forall (fun ev => is_fetch_event ev = true) walk /\
    run env = generate_events env walk ++ catch_lines e /\
    List.filter is_write (run env) = [].
Proof.
  intros Hmodel Hparse. destruct (generate_trace env) as (walk & Hwalk & Hrun).
  exists walk. split; [done|].
  assert (run env = generate_events env walk ++ catch_lines e) as ->.
  { unfold run, createAutomatedPR, try_catch. rewrite run_bind, Hrun, Hmodel.
    cbn beta iota. rewrite run_bind. unfold lift at 1. cbn [fst snd].
    unfold mbind, Result_bind in Hparse.
    destruct (extractXMLFromResponse text) as [xmlResponse|e'].
    - cbn beta iota. rewrite run_bind. unfold lift at 1. rewrite Hparse.
      by rewrite report_run.
    - injection Hparse as ->. by rewrite report_run. }
  split; [done|]. by rewrite filter_write_app_quiet by by apply generate_events_quiet.
Qed.

Lemma parse_failure_stops_witness :
  exists walk,
    Forall (fun ev => is_fetch_event ev = true) walk /\
    run (env_accepting response_without_files
           (xml2js_result (response_document "T" "B" [])))
    = generate_events (env_accepting response_without_files
                         (xml2js_result (response_document "T" "B" []))) walk
      ++ catch_lines TypeError /\
    List.filter is_write
      (run (env_accepting response_without_files
              (xml2js_result (response_document "T" "B" [])))) = [].
Proof.
  apply (parse_failure_stops
           (env_accepting response_without_files
              (xml2js_result (response_document "T" "B" [])))
           response_without_files (Some "Thinking.") TypeError).
  - intros h system user. reflexivity.
  - reflexivity.
Defined.

(** X14: when the parsed title is no string (the [title] element held
    elements, not text), the run asks the host for the repository, then fails
    on [toLowerCase] before any branch is created: it ends in the [catch]
    block and nothing is written. *)
Theorem title_not_string_stops (env : Env) (text : string) (reasoning : option string)
    (parsed : GeneratedContent.t) (defaultBranch : string) :
  (forall h system user, generateText env h system user = Return (text, reasoning)) ->
  (extractXMLFromResponse text ≫= parseModelResponse (parseStringPromise env))
  = Return parsed ->
  is_string (PRMetadata.title (GeneratedContent.pr parsed)) = false ->
  (forall h, reposGet env h = Return defaultBranch) ->
  exists walk,
    Forall (fun ev => is_fetch_event ev = true) walk /\
    run env = generate_events env walk ++ ReposGet :: catch_lines TypeError /\
    List.filter is_write (run env) = [].
Proof.
  intros Hmodel Hparse Htitle Hrepo. destruct (generate_trace env) as (walk & Hwalk & Hrun).
  exists walk. split; [done|].
  assert (run env = generate_events env walk ++ ReposGet :: catch_lines TypeError) as ->.
  { unfold run, createAutomatedPR, try_catch. rewrite run_bind, Hrun, Hmodel.
    cbn beta iota. rewrite run_bind. unfold lift at 1. cbn [fst snd].
    unfold mbind at 1, Result_bind in Hparse.
    destruct (extractXMLFromResponse text) as [xmlResponse|e']; [|discriminate].
    cbn beta iota. rewrite run_bind. unfold lift at 1. rewrite Hparse. cbn beta iota.
    unfold publish, request, lift. rewrite run_bind, Hrepo. cbn beta iota.
    rewrite run_bind.
    destruct (PRMetadata.title (GeneratedContent.pr parsed)); try discriminate;
      cbn [slug_of]; cbn beta iota; rewrite report_run; by norm_app. }
  split; [done|]. by rewrite filter_write_app_quiet by by apply generate_events_quiet.
Qed.

Lemma title_not_string_stops_witness :
  exists walk,
    Forall (fun ev => is_fetch_event ev = true) walk /\
    run (env_accepting "<response></response>" (xml2js_result document_title_element))
    = generate_events
        (env_accepting "<response></response>" (xml2js_result document_title_element)) walk
      ++ ReposGet :: catch_lines TypeError /\
    List.filter is_write
      (run (env_accepting "<response></response>" (xml2js_result document_title_element)))
    = [].
Proof.
  eapply (title_not_string_stops
            (env_accepting "<response></response>" (xml2js_result document_title_element))
            "<response></response>" (Some "Thinking.") _ "main").
  - intros h system user. reflexivity.
  - reflexivity.
  - reflexivity.
  - intros h. reflexivity.
Defined.

Lemma write_loop_rejected env branch done q c rest e h :
  (forall h p m c b, p <> JString q ->
                     createOrUpdateFileContents env h p m c b = Return tt) ->
  (forall h m c b, createOrUpdateFileContents env h (JString q) m c b = Throw e) ->
  Forall (fun edit : string * string => edit.1 <> q) done ->
  for_of (map edit_of (done ++ (q, c) :: rest)) (writeFile env branch) h
  = (h ++ map (write_of branch) done ++ [write_of branch (q, c)], Throw e).
Proof.
  intros Hother Hq Hdone. revert h.
  induction Hdone as [|[p c'] done Hp _ IH]; intros h.
  - simpl map. cbn [for_of]. rewrite run_bind, writeFile_run.
    cbn [edit_of FileContent.path FileContent.content template toBase64 fst snd].
    by rewrite Hq.
  - simpl map. cbn [for_of]. rewrite run_bind, writeFile_run.
    cbn [edit_of FileContent.path FileContent.content template toBase64 fst snd].
    rewrite Hother by (simpl in Hp; congruence).
    rewrite IH. unfold write_of at 3. cbn [fst snd]. by norm_app.
Qed.

(** X15: the first rejected write ends the publishing: the writes before it
    were made and stay (no request undoes them), the edits after it are not
    attempted, and neither the pull request nor the comment is requested. *)
Theorem rejected_write_aborts (env : Env) (title q c : string) (body : jsval)
    (reasoning : option string) (defaultBranch sha : string) (e : exn)
    (done rest : list (string * string)) (h : list Event) :
  (forall h, reposGet env h = Return defaultBranch) ->
  (forall h ref, getRef env h ref = Return sha) ->
  (forall h ref sha', createRef env h ref sha' = Return tt) ->
  (forall h p m c b, p <> JString q ->
                     createOrUpdateFileContents env h p m c b = Return tt) ->
  (forall h m c b, createOrUpdateFileContents env h (JString q) m c b = Throw e) ->
  Forall (fun edit : string * string => edit.1 <> q) done ->
  publish env (map edit_of (done ++ (q, c) :: rest)) (PRMetadata.mk (JString title) body)
    reasoning h
  = (h ++ [ReposGet;
           GetRef ("heads/" +:+ defaultBranch);
           CreateRef ("refs/heads/" +:+ newBranch title (now env)) sha]
       ++ map (write_of (newBranch title (now env))) done
       ++ [write_of (newBranch title (now env)) (q, c)],
     Throw e).
Proof.
  intros Hrepo Href Hcreate Hother Hq Hdone.
  unfold publish, request, lift. cbn [PRMetadata.title PRMetadata.body slug_of].
  rewrite run_bind, Hrepo. cbn beta iota.
  rewrite run_bind. cbn beta iota zeta.
  rewrite run_bind, Href. cbn beta iota.
  rewrite run_bind, Hcreate. cbn beta iota.
  rewrite run_bind, (write_loop_rejected env _ done q c rest e _ Hother Hq Hdone).
  cbn beta iota. unfold newBranch. f_equal. by norm_app.
Qed.

Lemma rejected_write_aborts_witness :
  publish (env_rejecting "b.ts" (RequestError "Conflict"))
    (map edit_of ([("a.ts", "1")] ++ ("b.ts", "2") :: [("c.ts", "3")]))
    (PRMetadata.mk (JString "Three files") (JString "B")) None []
  = ([] ++ [ReposGet;
            GetRef ("heads/" +:+ "main");
            CreateRef ("refs/heads/"
                       +:+ newBranch "Three files"
                             (now (env_rejecting "b.ts" (RequestError "Conflict"))))
              "abc123"]
        ++ map (write_of (newBranch "Three files"
                            (now (env_rejecting "b.ts" (RequestError "Conflict")))))
             [("a.ts", "1")]
        ++ [write_of (newBranch "Three files"
                        (now (env_rejecting "b.ts" (RequestError "Conflict"))))
              ("b.ts", "2")],
      Throw (RequestError "Conflict")).
Proof.
  apply (rejected_write_aborts (env_rejecting "b.ts" (RequestError "Conflict"))
           "Three files" "b.ts" "2" (JString "B") None "main" "abc123"
           (RequestError "Conflict") [("a.ts", "1")] [("c.ts", "3")] []).
  - intros h. reflexivity.
  - intros h ref. reflexivity.
  - intros h ref sha'. reflexivity.
  - intros h p m c b Hp. destruct p as [| |s| |]; try reflexivity.
    simpl. destruct (String.eqb_spec s "b.ts") as [->|]; [congruence|reflexivity].
  - intros h m c b. reflexivity.
  - repeat constructor. simpl. discriminate.
Defined.

(** X16: when the host rejects the pull request, the branch and every file
    write have been made and stay, and no comment is requested. *)
Theorem rejected_pull_request_keeps_writes (env : Env) (title : string) (body : jsval)
    (reasoning : option string) (defaultBranch sha : string) (e : exn)
    (edits : list (string * string)) (h : list Event) :
  (forall h, reposGet env h = Return defaultBranch) ->
  (forall h ref, getRef env h ref = Return sha) ->
  (forall h ref sha', createRef env h ref sha' = Return tt) ->
  (forall h p m c b, createOrUpdateFileContents env h p m c b = Return tt) ->
  (forall h t b head base, pullsCreate env h t b head base = Throw e) ->
  publish env (map edit_of edits) (PRMetadata.mk (JString title) body) reasoning h
  = (h ++ [ReposGet;
           GetRef ("heads/" +:+ defaultBranch);
           CreateRef ("refs/heads/" +:+ newBranch title (now env)) sha]
       ++ map (write_of (newBranch title (now env))) edits
       ++ [PullsCreate (JString title) body (newBranch title (now env)) defaultBranch],
     Throw e).
Proof.
  intros Hrepo Href Hcreate Hwrite Hpull.
  unfold publish, request, lift. cbn [PRMetadata.title PRMetadata.body slug_of].
  rewrite run_bind, Hrepo. cbn beta iota.
  rewrite run_bind. cbn beta iota zeta.
  rewrite run_bind, Href. cbn beta iota.
  rewrite run_bind, Hcreate. cbn beta iota.
  rewrite run_bind, (write_loop_run env _ edits _ Hwrite). cbn beta iota.
  rewrite run_bind, Hpull. cbn beta iota. unfold newBranch. f_equal. by norm_app.
Qed.

Lemma rejected_pull_request_keeps_writes_witness :
  publish (env_pull_rejected (RequestError "Validation Failed"))
    (map edit_of [("a.ts", "1"); ("b.ts", "2")])
    (PRMetadata.mk (JString "Two files") (JString "B")) None []
  = ([] ++ [ReposGet;
            GetRef ("heads/" +:+ "main");
            CreateRef ("refs/heads/"
                       +:+ newBranch "Two files"
                             (now (env_pull_rejected (RequestError "Validation Failed"))))
              "abc123"]
        ++ map (write_of (newBranch "Two files"
                            (now (env_pull_rejected (RequestError "Validation Failed")))))
             [("a.ts", "1"); ("b.ts", "2")]
        ++ [PullsCreate (JString "Two files") (JString "B")
              (newBranch "Two files"
                 (now (env_pull_rejected (RequestError "Validation Failed"))))
              "main"],
      Throw (RequestError "Validation Failed")).
Proof.
  apply (rejected_pull_request_keeps_writes
           (env_pull_rejected (RequestError "Validation Failed"))
           "Two files" (JString "B") None "main" "abc123"
           (RequestError "Validation Failed") [("a.ts", "1"); ("b.ts", "2")] []);
    intros; reflexivity.
Defined.

(** X17: when the listing of the root fails, the run goes on: the error is
    printed, the model is called with the fixed instructions and an empty
    codebase, and the user message is still the change request. *)
Theorem root_listing_failure_goes_on (env : Env) (e : exn) :
  contents env = ContentsError e ->
  exists after,
    run env
    = [ConsoleLog LogGettingRepoFiles;
       GetContent "";
       ConsoleError (LogErrorReading "" e);
       ConsoleLog (LogRepoFiles []);
       ConsoleLog (LogCodebaseContext "");
       Question;
       ConsoleLog (LogUserRequirements (answer env));
       GenerateText instructions (answer env)] ++ after.
Proof.
  intros Hroot.
  assert (forall h, exists reply,
             generate env h
             = (h ++ [ConsoleLog LogGettingRepoFiles;
                      GetContent "";
                      ConsoleError (LogErrorReading "" e);
                      ConsoleLog (LogRepoFiles []);
                      ConsoleLog (LogCodebaseContext "");
                      Question;
                      ConsoleLog (LogUserRequirements (answer env));
                      GenerateText instructions (answer env)], reply)) as Hgen.
  { intros h. eexists. unfold generate, getUserRequirements, request, emit.
    rewrite run_bind. cbn beta iota. rewrite run_bind, Hroot, getRepoFiles_unfold.
    cbn beta iota zeta. repeat (rewrite run_bind; cbn beta iota).
    norm_app. reflexivity. }
  destruct (Hgen []) as (reply & Hrun).
  unfold run, createAutomatedPR.
  match goal with
  | |- context [try_catch (?m ≫= ?f) ?r] =>
      destruct (try_bind_emits (fun _ => True) m f r [] _ _ Hrun) as (after & Hafter & _)
  end.
  { intros generated. repeat emits_step; done. }
  { intros e'. unfold report. repeat emits_step; done. }
  exists after. exact Hafter.
Qed.

Lemma root_listing_failure_goes_on_witness :
  exists after,
    run (env_model_down (Error "overloaded"))
    = [ConsoleLog LogGettingRepoFiles;
       GetContent "";
       ConsoleError (LogErrorReading "" (RequestError "Not Found"));
       ConsoleLog (LogRepoFiles []);
       ConsoleLog (LogCodebaseContext "");
       Question;
       ConsoleLog (LogUserRequirements (answer (env_model_down (Error "overloaded"))));
       GenerateText instructions (answer (env_model_down (Error "overloaded")))] ++ after.
Proof.
  apply (root_listing_failure_goes_on (env_model_down (Error "overloaded"))
           (RequestError "Not Found")).
  reflexivity.
Defined.

(** X18: the module body: with an empty owner or repository setting it
    throws the fixed error before anything is printed or requested; with both
    set and without the flag it prints the usage text and does nothing else,
    not even the prompt; with the flag it runs the pipeline, which returns
    normally. *)
Theorem main_entry (argv : list string) (env : Env) (h : list Event) :
  (GITHUB_OWNER env = "" \/ GITHUB_REPO env = "" ->
   main argv env h
   = (h, Throw (Error "GITHUB_OWNER and GITHUB_REPO environment variables must be set"))) /\
  (GITHUB_OWNER env <> "" -> GITHUB_REPO env <> "" -> "--interactive" ∉ argv ->
   main argv env h = (h ++ [ConsoleLog LogUsage], Return tt)) /\
  (GITHUB_OWNER env <> "" -> GITHUB_REPO env <> "" -> "--interactive" ∈ argv ->
   exists evs, main argv env h = (h ++ evs, Return tt) /\
               main argv env h = createAutomatedPR env h).
Proof.
  unfold main. repeat split.
  - intros [->| ->]; [done|]. by rewrite orb_true_r.
  - intros Ho Hr Hflag.
    apply String.eqb_neq in Ho, Hr. rewrite Ho, Hr. cbn [orb].
    by rewrite bool_decide_eq_false_2.
  - intros Ho Hr Hflag.
    apply String.eqb_neq in Ho, Hr. rewrite Ho, Hr. cbn [orb].
    rewrite bool_decide_eq_true_2 by done.
    destruct (pipeline_outcome env h) as (evs & Hrun & _). exists evs. by split.
Qed.

Lemma main_entry_witness :
  main ["node"; "index.js"] env_no_tag [] = ([] ++ [ConsoleLog LogUsage], Return tt).
Proof.
  destruct (main_entry ["node"; "index.js"] env_no_tag []) as (_ & Husage & _).
  apply Husage; [discriminate|discriminate|].
  intros Hin. repeat (apply elem_of_cons in Hin as [Hin|Hin]; [discriminate|]).
  by apply elem_of_nil in Hin.
Defined.
